(** * fmp_toolbox: the record-system clerk, the batch location sync,
      the manager-change notes and the path normalizer

    A shallow embedding of [update_fmp_project_location.py] and
    [change_project_pm.py].

    Conventions of the embedding.
    - A Python [str] is a [string]; its characters are the code points
      below 256.
    - An exception is represented by its text [str(e)], the only thing
      the programs look at.
    - [os.path] is [posixpath]: the docstring of [split_path] says that it
      is built to split Windows and Linux paths "on linux systems".
    - The FileMaker server and its found sets are collaborators: the
      server is a record of state transformers that either return or
      raise. *)

From Stdlib Require Import String Ascii List Arith ZArith Lia Bool DecimalString.
From Equations.Prop Require Import Equations Logic.
Import ListNotations.
Open Scope string_scope.

(** ** Python string primitives *)

Module PyStr.

(** [s[:n]] *)
Fixpoint take (n : nat) (s : string) : string :=
  match n, s with
  | S k, String c t => String c (take k t)
  | _, _ => ""
  end.

(** [s[n:]] *)
Fixpoint drop (n : nat) (s : string) : string :=
  match n, s with
  | S k, String _ t => drop k t
  | _, _ => s
  end.

(** [s.startswith(p)] *)
Definition startswith (p s : string) : bool := String.prefix p s.

(** [s.endswith(p)] *)
Definition endswith (p s : string) : bool :=
  (String.length p <=? String.length s)%nat
  && (drop (String.length s - String.length p) s =? p).

(** [s.rfind(c)] for a one-character needle: the highest index, or -1. *)
Fixpoint rfind (c : ascii) (s : string) : Z :=
  match s with
  | "" => (-1)%Z
  | String a t =>
      let r := rfind c t in
      if (0 <=? r)%Z then (r + 1)%Z
      else if Ascii.eqb a c then 0%Z else (-1)%Z
  end.

(** [s * n] *)
Fixpoint mul (s : string) (n : nat) : string :=
  match n with
  | 0 => ""
  | S k => s ++ mul s k
  end.

(** [s.rstrip(chars)], the character set given as a predicate. *)
Fixpoint rstrip (chars : ascii -> bool) (s : string) : string :=
  match s with
  | "" => ""
  | String a t =>
      match rstrip chars t with
      | "" => if chars a then "" else String a ""
      | r => String a r
      end
  end.

(** [s.lstrip(chars)] *)
Fixpoint lstrip (chars : ascii -> bool) (s : string) : string :=
  match s with
  | "" => ""
  | String a t => if chars a then lstrip chars t else s
  end.

(** [c.isspace()] on the code points below 256: TAB, LF, VT, FF, CR,
    FS, GS, RS, US, SPACE, NEL and NBSP. *)
Definition isspace (c : ascii) : bool :=
  let n := nat_of_ascii c in
  ((9 <=? n) && (n <=? 13))%nat || ((28 <=? n) && (n <=? 32))%nat
  || (n =? 133)%nat || (n =? 160)%nat.

(** [s.strip()] *)
Definition strip (s : string) : string := lstrip isspace (rstrip isspace s).

(** [needle in hay] *)
Fixpoint contains (needle hay : string) : bool :=
  String.prefix needle hay
  || match hay with
     | "" => false
     | String _ t => contains needle t
     end.

(** [s[n] == c], false when [n] is out of range. *)
Definition char_at_is (n : nat) (s : string) (c : ascii) : bool :=
  match String.get n s with
  | Some a => Ascii.eqb a c
  | None => false
  end.

(** Truth value of a string: [bool(s)]. *)
Definition truthy (s : string) : bool := negb (s =? "").

End PyStr.

(** ** [posixpath] *)

Module PosixPath.
Import PyStr.

Definition sep : string := "/".

(** [posixpath.split(p)]: everything up to the last slash, with the
    trailing slashes of a head that is not all slashes removed, and the
    rest. *)
Definition split (p : string) : string * string :=
  let i := Z.to_nat (rfind "/"%char p + 1) in
  let head := take i p in
  let tail := drop i p in
  let head :=
    if truthy head && negb (head =? mul sep (String.length head))
    then rstrip (Ascii.eqb "/"%char) head
    else head in
  (head, tail).

(** [posixpath.join(a, *p)] *)
Definition join (a : string) (p : list string) : string :=
  fold_left
    (fun path b =>
       if startswith sep b then b
       else if negb (truthy path) || endswith sep path then path ++ b
       else path ++ sep ++ b)
    p a.

(** The head of a split is an initial part of the path: it is the path
    itself or it is shorter. The generic splitter's loop relies on it. *)

Lemma take_length_le (n : nat) (s : string) :
  String.length (take n s) <= String.length s.
Proof.
  revert n; induction s as [|c t IH]; intros [|n]; simpl; try lia.
  specialize (IH n); lia.
Qed.

Lemma take_full (n : nat) (s : string) :
  String.length (take n s) = String.length s -> take n s = s.
Proof.
  revert n; induction s as [|c t IH]; intros [|n]; simpl; intros H;
    try reflexivity; try discriminate.
  f_equal; apply IH; lia.
Qed.

Lemma rstrip_length_le (chars : ascii -> bool) (s : string) :
  String.length (rstrip chars s) <= String.length s.
Proof.
  induction s as [|c t IH]; simpl; [lia|].
  destruct (rstrip chars t) eqn:E; simpl in *.
  - destruct (chars c); simpl; lia.
  - lia.
Qed.

Lemma rstrip_full (chars : ascii -> bool) (s : string) :
  String.length (rstrip chars s) = String.length s -> rstrip chars s = s.
Proof.
  induction s as [|c t IH]; simpl; [reflexivity|].
  pose proof (rstrip_length_le chars t) as Hle.
  destruct (rstrip chars t) eqn:E; simpl in *.
  - destruct (chars c); simpl; intros H; [discriminate|].
    destruct t; simpl in *; [reflexivity | lia].
  - intros H. f_equal. apply IH. lia.
Qed.

Lemma split_head_length (p : string) :
  String.length (fst (split p)) <= String.length p.
Proof.
  unfold split; simpl.
  pose proof (take_length_le (Z.to_nat (rfind "/"%char p + 1)) p).
  match goal with |- context [if ?b then _ else _] => destruct b end;
    [|assumption].
  pose proof (rstrip_length_le (Ascii.eqb "/"%char)
                (take (Z.to_nat (rfind "/"%char p + 1)) p)).
  lia.
Qed.

Lemma split_head_shorter (p : string) :
  fst (split p) <> p -> String.length (fst (split p)) < String.length p.
Proof.
  intros Hne.
  pose proof (split_head_length p) as Hle.
  destruct (Nat.eq_dec (String.length (fst (split p))) (String.length p))
    as [Heq|]; [|lia].
  exfalso; apply Hne; clear Hne Hle.
  revert Heq; unfold split; simpl.
  set (h := take (Z.to_nat (rfind "/"%char p + 1)) p).
  pose proof (take_length_le (Z.to_nat (rfind "/"%char p + 1)) p) as Ht.
  fold h in Ht.
  match goal with |- context [if ?b then _ else _] => destruct b end.
  - intros Heq.
    pose proof (rstrip_length_le (Ascii.eqb "/"%char) h) as Hr.
    assert (Hh : h = p) by (apply take_full; fold h; lia).
    rewrite (rstrip_full (Ascii.eqb "/"%char) h) by lia.
    exact Hh.
  - intros Heq. apply take_full. exact Heq.
Qed.

End PosixPath.

(** ** The path normalizer of [update_fmp_project_location.py] *)

Module PathNormalizer.
Import PyStr.

Definition FILE_SERVER_LOCATION : string := "N:\PPDO\Records\".

Inductive filepath_type := Windows | Linux | Unknown.

Definition newline : ascii := "010"%char.

(** [[A-Za-z]] *)
Definition is_letter (c : ascii) : bool :=
  let n := nat_of_ascii c in
  ((65 <=? n) && (n <=? 90))%nat || ((97 <=? n) && (n <=? 122))%nat.

(** The rest of a [.+$] match once one character is consumed: characters
    other than a newline up to the end, or up to a newline that is the
    last character. *)
Fixpoint dots_to_end (s : string) : bool :=
  match s with
  | "" => true
  | String c t => if Ascii.eqb c newline then t =? "" else dots_to_end t
  end.

(** [re.match(r"^[A-Za-z]:\\(.+)$", s)] *)
Definition match_windows_pattern (s : string) : bool :=
  match s with
  | String l (String ":" (String "\" (String c t))) =>
      is_letter l && negb (Ascii.eqb c newline) && dots_to_end t
  | _ => false
  end.

(** The segments after the leading slash of [^/([^/]+/)*[^/]+$]:
    [in_seg] tells whether the segment being read is non-empty. *)
Fixpoint linux_segments (in_seg : bool) (s : string) : bool :=
  match s with
  | "" => in_seg
  | String c t =>
      if Ascii.eqb c "/"%char then in_seg && linux_segments false t
      else linux_segments true t
  end.

(** [re.match(r"^/([^/]+/)*[^/]+$", s)] *)
Definition match_linux_pattern (s : string) : bool :=
  match s with
  | String "/" t => linux_segments false t
  | _ => false
  end.

Definition detect_filepath_type (filepath : string) : filepath_type :=
  if match_windows_pattern filepath then Windows
  else if match_linux_pattern filepath then Linux
  else Unknown.

(** One turn of [for char in filepath] over [(parts, curr_part)]. *)
Definition windows_char_step (st : list string * string) (char : ascii)
  : list string * string :=
  let '(parts, curr_part) := st in
  if Ascii.eqb char "\"%char then
    if truthy curr_part then ((parts ++ [curr_part])%list, "")
    else (parts, curr_part)
  else (parts, curr_part ++ String char "").

Definition split_windows_path (filepath : string) : list string :=
  let '(parts, filepath, is_absolute) :=
    if startswith "\\" filepath then
      ([take 2 filepath], drop 2 filepath, false)
    else if (2 <=? String.length filepath)%nat
            && char_at_is 1 filepath ":"%char then
      ([take 2 filepath], drop 2 filepath, true)
    else ([], filepath, false) in
  let '(parts, curr_part) :=
    fold_left windows_char_step (list_ascii_of_string filepath) (parts, "") in
  let parts := if truthy curr_part then (parts ++ [curr_part])%list else parts in
  let parts :=
    if negb is_absolute && match parts with [] => true | _ => false end
    then (parts ++ [curr_part])%list
    else parts in
  parts.

(** [split_other_path]: the [while True] loop peels the last component
    off [path] with [os.path.split] until one of the two sentinels is
    met. Every turn that goes on continues with a strictly shorter
    [path], which is what makes the loop a function. *)
Equations? split_other_path_loop (path : string) (allparts : list string)
  : list string by wf (String.length path) lt :=
  split_other_path_loop path allparts
    with inspect (fst (PosixPath.split path) =? path) := {
    | exist _ true _ => fst (PosixPath.split path) :: allparts
    | exist _ false Hhead with (snd (PosixPath.split path) =? path) := {
        | true => snd (PosixPath.split path) :: allparts
        | false =>
            split_other_path_loop (fst (PosixPath.split path))
                                  (snd (PosixPath.split path) :: allparts) } }.
Proof.
  apply PosixPath.split_head_shorter. apply String.eqb_neq. exact Hhead.
Qed.

Definition split_other_path (path : string) : list string :=
  split_other_path_loop path [].

Definition split_path (path : string) : list string :=
  match detect_filepath_type path with
  | Windows => split_windows_path path
  | _ => split_other_path path
  end.

(** [os.path.join] applied to [FILE_SERVER_LOCATION] followed by the
    segments of [split_path(db_path)]. *)
Definition db_path_to_user_path (db_path : string) : string :=
  PosixPath.join FILE_SERVER_LOCATION (split_path db_path).

End PathNormalizer.

(** ** The FileMaker clerk: [ProjectChangingClerk]

    The class is the same in both programs as far as the session
    handling goes; [_auto_relogin_fm] is identical line by line. *)

Module Clerk.
Import PyStr.

(** A call returns or raises; [OutOfFuel] marks a loop of the model that
    was given too few turns and is never the result of the program. *)
Inductive result (A : Type) : Type :=
| Return (a : A)
| Raise (e : string)
| OutOfFuel.
Arguments Return {A} a.
Arguments Raise {A} e.
Arguments OutOfFuel {A}.

(** What a call of the server library does: it returns or it raises. *)
Inductive outcome (A : Type) : Type :=
| Returns (a : A)
| Raises (e : string).
Arguments Returns {A} a.
Arguments Raises {A} e.

(** A FileMaker record of the projects layout, with the fields the two
    programs read. *)
Record record : Type := {
  recordId : string;
  ID_Primary : string;
  ProjectNumber : string;
  ProjectName : string;
  Notes : string;
  ID_ProjectManager : string
}.

(** A found set, as the rows of [to_df()] in the order of iteration. *)
Definition foundset : Type := list record.

(** [query=[{field: value}, ...]] and [field_data={field: value}] *)
Definition query : Type := list (list (string * string)).
Definition field_data : Type := list (string * string).

Inductive log_level := INFO | WARNING | ERROR.

(** What the program does to the outside, in order. *)
Inductive event : Type :=
| EvLogin
| EvFind (q : query)
| EvEditRecord (record_id : string) (changes : field_data)
| EvWarn (msg : string)
| EvLog (level : log_level) (msg : string).

(** The [fmrest.Server] collaborator over its own state [R]. *)
Record fm_server (R : Type) : Type := {
  login : R -> outcome unit * R;
  find : query -> R -> outcome foundset * R;
  edit_record : string -> field_data -> R -> outcome bool * R;
  (** [bool(foundset)] as the library defines it *)
  foundset_bool : foundset -> bool
}.
Arguments login {R} _ _.
Arguments find {R} _ _ _.
Arguments edit_record {R} _ _ _ _.
Arguments foundset_bool {R} _ _.

(** The state a run threads: the server, the trace of events and the
    mutable objects [H] of the calling program. *)
Record world (R H : Type) : Type := {
  remote : R;
  trace : list event;
  heap : H
}.
Arguments remote {R H} _.
Arguments trace {R H} _.
Arguments heap {R H} _.

Section Monad.
Context {R H : Type}.

Definition M (A : Type) : Type := world R H -> result A * world R H.

Definition ret {A} (a : A) : M A := fun w => (Return a, w).

Definition raise {A} (e : string) : M A := fun w => (Raise e, w).

Definition bind {A B} (m : M A) (k : A -> M B) : M B :=
  fun w =>
    match m w with
    | (Return a, w') => k a w'
    | (Raise e, w') => (Raise e, w')
    | (OutOfFuel, w') => (OutOfFuel, w')
    end.

(** [try: m  except Exception as e: h e] *)
Definition try_except {A} (m : M A) (h : string -> M A) : M A :=
  fun w =>
    match m w with
    | (Raise e, w') => h e w'
    | r => r
    end.

Definition emit (ev : event) : M unit :=
  fun w => (Return tt,
            {| remote := remote w; trace := (trace w ++ [ev])%list;
               heap := heap w |}).

(** A call of a server method, recorded in the trace. *)
Definition call {A} (ev : event) (op : R -> outcome A * R) : M A :=
  fun w =>
    let (r, rem) := op (remote w) in
    (match r with Returns a => Return a | Raises e => Raise e end,
     {| remote := rem; trace := (trace w ++ [ev])%list; heap := heap w |}).

Definition get_heap : M H := fun w => (Return (heap w), w).

Definition modify_heap (f : H -> H) : M unit :=
  fun w => (Return tt,
            {| remote := remote w; trace := trace w; heap := f (heap w) |}).

End Monad.

Declare Scope clerk_scope.
Delimit Scope clerk_scope with clerk.
Notation "x <- m ;; k" := (bind m (fun x => k))
  (at level 61, m at next level, right associativity) : clerk_scope.
Notation "m ;;; k" := (bind m (fun _ => k))
  (at level 61, right associativity) : clerk_scope.
Open Scope clerk_scope.

(** How a turn of a [while True] loop ends: it falls through to the next
    turn with the loop variables [S], or it leaves the function with a
    value. *)
Inductive loop_step (S A : Type) : Type :=
| NextTurn (s : S)
| Leave (a : A).
Arguments NextTurn {S A} s.
Arguments Leave {S A} a.

Section Wrapper.
Context {R H : Type}.
Variable fm : fm_server R.
Variable auto_login_attempts : nat.

Fixpoint while_true {S A} (fuel : nat) (body : S -> M (R:=R) (H:=H) (loop_step S A))
  (s : S) : M A :=
  match fuel with
  | 0 => fun w => (OutOfFuel, w)
  | Datatypes.S fuel' =>
      step <- body s ;;
      match step with
      | NextTurn s' => while_true fuel' body s'
      | Leave a => ret a
      end
  end.

Definition fm_login : M (R:=R) (H:=H) unit := call EvLogin (login fm).

Definition warning_401 : string :=
  "FileMaker Server returned error 401, No records match the request".

(** The body of the loop of [_auto_relogin_fm]; [None] is Python's
    [None]. *)
Definition relogin_turn {A} (server_method : M (R:=R) (H:=H) A) (attempted : nat)
  : M (loop_step nat (option A)) :=
  try_except
    (v <- server_method ;; ret (Leave (Some v)))
    (fun e =>
       let attempted := attempted + 1 in
       if (auto_login_attempts <=? attempted)%nat then raise e
       else
         (if contains "952" e then fm_login else ret tt) ;;;
         if contains "401" e then
           emit (EvWarn warning_401) ;;; ret (Leave None)
         else raise e).

Definition _auto_relogin_fm {A} (fuel : nat) (server_method : M (R:=R) (H:=H) A)
  : M (option A) :=
  while_true fuel (relogin_turn server_method) 0.

Definition PROJECT_NUMBER_FIELD : string := "ProjectNumber".
Definition PROJECT_LOCATION_FIELD : string := "FileServerLocation".
Definition PROJECT_NOTES_FIELD : string := "Notes".
Definition PROJECT_PM_ID_FIELD : string := "ID_ProjectManager".
Definition IDX_FIELD_NAME : string := "ID_Primary".

Definition fm_find (q : query) : M (R:=R) (H:=H) foundset :=
  call (EvFind q) (find fm q).

Definition fm_edit_record (record_id : string) (changes : field_data)
  : M (R:=R) (H:=H) bool :=
  call (EvEditRecord record_id changes) (edit_record fm record_id changes).

Definition projects_queried_by_number (fuel : nat) (number : string)
  : M (option foundset) :=
  let project_number_query := [[(PROJECT_NUMBER_FIELD, number)]] in
  _auto_relogin_fm fuel (fm_find project_number_query).

Definition projects_queried_by_id (fuel : nat) (project_id : string)
  : M (option foundset) :=
  let project_id_query := [[(IDX_FIELD_NAME, project_id)]] in
  _auto_relogin_fm fuel (fm_find project_id_query).

Definition make_change_to_project_data (fuel : nat) (project_record_id : string)
  (change_dict : field_data) : M (option bool) :=
  _auto_relogin_fm fuel (fm_edit_record project_record_id change_dict).

(** [not x] for the found set or [None] that the wrapper hands back. *)
Definition not_foundset (x : option foundset) : bool :=
  match x with
  | None => true
  | Some fs => negb (foundset_bool fm fs)
  end.

End Wrapper.

(** [warnings.filterwarnings('ignore')] at the top of
    [change_project_pm.py] keeps every warning from being shown; the
    batch program leaves the filters alone. *)
Inductive warnings_filter := FilterDefault | FilterIgnore.

Definition warnings_issued (t : list event) : list string :=
  flat_map (fun ev => match ev with EvWarn m => [m] | _ => [] end) t.

Definition warnings_shown (f : warnings_filter) (t : list event) : list string :=
  match f with
  | FilterIgnore => []
  | FilterDefault => warnings_issued t
  end.

(** A server that plays a script: each call takes the next reply. *)
Inductive reply : Type :=
| ReplyFound (fs : foundset)
| ReplyBool (b : bool)
| ReplyOk
| ReplyFault (e : string).

Definition script_exhausted : string := "script exhausted".

Definition scripted_login (s : list reply) : outcome unit * list reply :=
  match s with
  | ReplyOk :: s' => (Returns tt, s')
  | ReplyFault e :: s' => (Raises e, s')
  | _ :: s' => (Raises script_exhausted, s')
  | [] => (Raises script_exhausted, [])
  end.

Definition scripted_find (q : query) (s : list reply)
  : outcome foundset * list reply :=
  match s with
  | ReplyFound fs :: s' => (Returns fs, s')
  | ReplyFault e :: s' => (Raises e, s')
  | _ :: s' => (Raises script_exhausted, s')
  | [] => (Raises script_exhausted, [])
  end.

Definition scripted_edit_record (record_id : string) (changes : field_data)
  (s : list reply) : outcome bool * list reply :=
  match s with
  | ReplyBool b :: s' => (Returns b, s')
  | ReplyFault e :: s' => (Raises e, s')
  | _ :: s' => (Raises script_exhausted, s')
  | [] => (Raises script_exhausted, [])
  end.

Definition scripted : fm_server (list reply) := {|
  login := scripted_login;
  find := scripted_find;
  edit_record := scripted_edit_record;
  foundset_bool := fun _ => true
|}.

End Clerk.

(** ** The batch location sync: the [__main__] block of
       [update_fmp_project_location.py] *)

Module Batch.
Import PyStr Clerk.

Definition nl : string := String "010"%char "".

(** [str(n)] for a counter *)
Definition str_of_nat (n : nat) : string :=
  NilEmpty.string_of_uint (Nat.to_uint n).

Record UpdateStatus : Type := {
  project_locations_updated : nat;
  projects_not_in_fmp : nat;
  projects_not_in_db : nat;
  multiple_projects_in_fmp : nat;
  ids_not_found_in_fmp : nat;
  projects_modified : list string
}.

(** [UpdateStatus.__init__] *)
Definition UpdateStatus_init : UpdateStatus := {|
  project_locations_updated := 0;
  projects_not_in_fmp := 0;
  projects_not_in_db := 0;
  multiple_projects_in_fmp := 0;
  ids_not_found_in_fmp := 0;
  projects_modified := []
|}.

(** [UpdateStatus.__str__] *)
Definition UpdateStatus_str (self : UpdateStatus) : string :=
  ("Project Locations Updated: "
     ++ str_of_nat (project_locations_updated self) ++ nl)
  ++ ("Projects Not Found in FileMaker: "
        ++ str_of_nat (projects_not_in_fmp self) ++ nl)
  ++ ("Projects Not Found in Database: "
        ++ str_of_nat (projects_not_in_db self) ++ nl)
  ++ ("Multiple Projects Found in FileMaker: "
        ++ str_of_nat (multiple_projects_in_fmp self) ++ nl)
  ++ ("IDs Not Found in FileMaker: "
        ++ str_of_nat (ids_not_found_in_fmp self) ++ nl).

(** The four updates of the tally that the loop makes. *)
Definition count_not_in_fmp (s : UpdateStatus) : UpdateStatus := {|
  project_locations_updated := project_locations_updated s;
  projects_not_in_fmp := projects_not_in_fmp s + 1;
  projects_not_in_db := projects_not_in_db s;
  multiple_projects_in_fmp := multiple_projects_in_fmp s;
  ids_not_found_in_fmp := ids_not_found_in_fmp s;
  projects_modified := projects_modified s
|}.

Definition count_multiple_in_fmp (s : UpdateStatus) : UpdateStatus := {|
  project_locations_updated := project_locations_updated s;
  projects_not_in_fmp := projects_not_in_fmp s;
  projects_not_in_db := projects_not_in_db s;
  multiple_projects_in_fmp := multiple_projects_in_fmp s + 1;
  ids_not_found_in_fmp := ids_not_found_in_fmp s;
  projects_modified := projects_modified s
|}.

Definition count_id_not_found (s : UpdateStatus) : UpdateStatus := {|
  project_locations_updated := project_locations_updated s;
  projects_not_in_fmp := projects_not_in_fmp s;
  projects_not_in_db := projects_not_in_db s;
  multiple_projects_in_fmp := multiple_projects_in_fmp s;
  ids_not_found_in_fmp := ids_not_found_in_fmp s + 1;
  projects_modified := projects_modified s
|}.

Definition count_updated (proj_number : string) (s : UpdateStatus)
  : UpdateStatus := {|
  project_locations_updated := project_locations_updated s + 1;
  projects_not_in_fmp := projects_not_in_fmp s;
  projects_not_in_db := projects_not_in_db s;
  multiple_projects_in_fmp := multiple_projects_in_fmp s;
  ids_not_found_in_fmp := ids_not_found_in_fmp s;
  projects_modified := (projects_modified s ++ [proj_number])%list
|}.

(** A row of the archives database: [row['number']] and
    [row['file_server_location']]. *)
Record source_row : Type := {
  number : string;
  file_server_location : string
}.

Definition with_project_number (r : record) (v : string) : record := {|
  recordId := recordId r;
  ID_Primary := ID_Primary r;
  ProjectNumber := v;
  ProjectName := ProjectName r;
  Notes := Notes r;
  ID_ProjectManager := ID_ProjectManager r
|}.

(** [df[PROJECT_NUMBER_FIELD] = df[PROJECT_NUMBER_FIELD].astype(str).str.strip()] *)
Definition strip_project_numbers (df : list record) : list record :=
  map (fun r => with_project_number r (strip (ProjectNumber r))) df.

(** [df[df[PROJECT_NUMBER_FIELD] == proj_number]] *)
Definition rows_with_number (proj_number : string) (df : list record)
  : list record :=
  filter (fun r => ProjectNumber r =? proj_number) df.

(** The matching step of the loop, lines 277 to 280: the found set as a
    frame, its key column stripped, the rows equal to the source key. *)
Definition matching_rows (proj_number : string) (fs : foundset) : list record :=
  rows_with_number proj_number (strip_project_numbers fs).

Section Loop.
Context {R : Type}.
Variable fm : fm_server R.

(** [self.auto_login_attempts = 3] in [ProjectChangingClerk.__init__] *)
Definition auto_login_attempts : nat := 3.

Local Abbreviation M := (Clerk.M (R:=R) (H:=UpdateStatus)).

Definition log (level : log_level) (msg : string) : M unit :=
  emit (EvLog level msg).

Definition not_found_in_fmp (proj_number : string) : M unit :=
  log WARNING ("Project " ++ proj_number ++ " not found in FileMaker.") ;;;
  modify_heap count_not_in_fmp.

(** [str(KeyError(key))], the text of the fault that [df[key]] raises on
    a frame without that column. *)
Definition key_error (key : string) : string := "'" ++ key ++ "'".

(** The body of [for idx, row in project_location_df.iterrows()]; each
    [continue] ends the turn. The frame that [to_df()] makes of a found
    set of no records has no columns, so line 279 raises [KeyError] on
    it. *)
Definition process_row (fuel : nat) (row : source_row) : M unit :=
  let proj_number := number row in
  let proj_db_location := file_server_location row in
  try_except
    (fmp_proj_num_foundset <-
       projects_queried_by_number fm auto_login_attempts fuel proj_number ;;
     match fmp_proj_num_foundset with
     | None => not_found_in_fmp proj_number
     | Some fs =>
         if negb (foundset_bool fm fs) then not_found_in_fmp proj_number
         else
           match fs with
           | [] => raise (key_error PROJECT_NUMBER_FIELD)
           | _ :: _ =>
               match matching_rows proj_number fs with
               | [] => not_found_in_fmp proj_number
               | _ :: _ :: _ =>
                   log WARNING
                     ("Multiple projects found in FileMaker for project number "
                        ++ proj_number ++ ".") ;;;
                   modify_heap count_multiple_in_fmp
               | [fmp_proj_num_row] =>
                   let proj_id := ID_Primary fmp_proj_num_row in
                   fmp_proj_id_foundset <-
                     projects_queried_by_id fm auto_login_attempts fuel proj_id ;;
                   if not_foundset fm fmp_proj_id_foundset
                      || match fmp_proj_id_foundset with
                         | Some fs' => (1 <? List.length fs')%nat
                         | None => false
                         end
                   then
                     log WARNING
                       ("Project " ++ proj_number
                          ++ " not found in FileMaker using ID, " ++ proj_id ++ ".") ;;;
                     modify_heap count_id_not_found
                   else
                     let user_location :=
                       PathNormalizer.db_path_to_user_path proj_db_location in
                     match fmp_proj_id_foundset with
                     | Some (record :: _) =>
                         let record_id := recordId record in
                         let change_dict := [(PROJECT_LOCATION_FIELD, user_location)] in
                         updated <-
                           make_change_to_project_data fm auto_login_attempts fuel
                             record_id change_dict ;;
                         match updated with
                         | Some true => modify_heap (count_updated proj_number)
                         | _ => ret tt
                         end
                     | _ => ret tt
                     end
               end
           end
     end)
    (fun e =>
       log ERROR ("Error processing project " ++ proj_number ++ ": " ++ e)).

Fixpoint for_rows (fuel : nat) (rows : list source_row) : M unit :=
  match rows with
  | [] => ret tt
  | row :: rest => process_row fuel row ;;; for_rows fuel rest
  end.

(** [', '.join(map(str, l))] *)
Definition join_comma (l : list string) : string := String.concat ", " l.

(** The loop and the summary that follows it. *)
Definition main_loop (fuel : nat) (project_location_df : list source_row)
  : M unit :=
  for_rows fuel project_location_df ;;;
  log INFO "Update process completed. Status summary:" ;;;
  status <- get_heap ;;
  log INFO (UpdateStatus_str status) ;;;
  log INFO ("Modified projects: " ++ join_comma (projects_modified status)).

(** The state when the loop starts: [status = UpdateStatus()]. *)
Definition initial_world (r : R) : world R UpdateStatus :=
  {| remote := r; trace := []; heap := UpdateStatus_init |}.

End Loop.

End Batch.

(** ** The notes of a manager change: [PmChangeService] in
       [change_project_pm.py] *)

Module PmChange.
Import PyStr Clerk.

Definition nl : string := String "010"%char "".

(** A record of the people layout. *)
Record person : Type := {
  person_ID_Primary : string;
  NameFirst : string;
  NameLast : string
}.

(** [_generate_notes_str]; [datestamp] is the reading of the clock,
    formatted [%Y-%m-%d %H:%M:%S]. [old_pm_name] is a name or [None]. *)
Definition _generate_notes_str (datestamp : string)
  (old_pm_name : option string) (new_pm_name : string) : string :=
  let change_str :=
    match old_pm_name with
    | Some name =>
        if truthy name then "changed from " ++ name ++ " to" else "set to"
    | None => "set to"
    end in
  "Project PM " ++ change_str ++ " " ++ new_pm_name ++ " on " ++ datestamp.

(** Lines 316 to 320 of [change_project_pm]: the value written to the
    notes field. *)
Definition new_notes_value (datestamp : string) (proj_notes : string)
  (old_pm_name : option string) (target_pm_name : string) : string :=
  let new_notes := _generate_notes_str datestamp old_pm_name target_pm_name in
  if truthy proj_notes then proj_notes ++ nl ++ new_notes else new_notes.

Section Write.
Context {R H : Type}.
Variable fm : fm_server R.

Definition auto_login_attempts : nat := 3.

(** The end of [change_project_pm], from line 316: the changes and the
    edit call that writes them. *)
Definition change_project_pm_write (fuel : nat) (datestamp : string)
  (project_to_change : record) (old_pm_name : option string)
  (target_pm : person) : Clerk.M (R:=R) (H:=H) (option bool) :=
  let proj_notes := Notes project_to_change in
  let target_pm_name := NameFirst target_pm ++ " " ++ NameLast target_pm in
  let new_notes :=
    new_notes_value datestamp proj_notes old_pm_name target_pm_name in
  let changes_dict :=
    [(PROJECT_NOTES_FIELD, new_notes);
     (PROJECT_PM_ID_FIELD, person_ID_Primary target_pm)] in
  make_change_to_project_data fm auto_login_attempts fuel
    (recordId project_to_change) changes_dict.

End Write.

End PmChange.


(** * Properties *)

(** ** The path normalizer *)

Module PathProps.
Import PyStr PathNormalizer.

Lemma windows_step_keeps_parts (parts : list string) (curr : string)
  (c : ascii) :
  exists extra,
    fst (windows_char_step (parts, curr) c) = (parts ++ extra)%list.
Proof.
  unfold windows_char_step.
  destruct (Ascii.eqb c "\"%char); [destruct (truthy curr)|]; simpl.
  - now exists [curr].
  - exists []. now rewrite app_nil_r.
  - exists []. now rewrite app_nil_r.
Qed.

Lemma windows_steps_keep_parts (cs : list ascii) (st : list string * string) :
  exists extra,
    fst (fold_left windows_char_step cs st) = (fst st ++ extra)%list.
Proof.
  revert st; induction cs as [|c cs IH]; intros [parts curr].
  - exists []. simpl. now rewrite app_nil_r.
  - change (fold_left windows_char_step (c :: cs) (parts, curr))
      with (fold_left windows_char_step cs (windows_char_step (parts, curr) c)).
    destruct (windows_step_keeps_parts parts curr c) as [e1 H1].
    destruct (IH (windows_char_step (parts, curr) c)) as [e2 H2].
    exists (e1 ++ e2)%list. rewrite H2, H1. simpl. now rewrite app_assoc.
Qed.

Lemma match_windows_pattern_inv (path : string) :
  match_windows_pattern path = true ->
  exists l c t,
    path = String l (String ":" (String "\" (String c t)))
    /\ is_letter l = true.
Proof.
  intros H.
  destruct path as [|l [|c1 [|c2 [|c3 t]]]]; simpl in H; try discriminate H;
    destruct c1 as [[] [] [] [] [] [] [] []]; try discriminate H;
    destruct c2 as [[] [] [] [] [] [] [] []]; try discriminate H.
  apply andb_prop in H as [H _]. apply andb_prop in H as [Hl _].
  now exists l, c3, t.
Qed.

Lemma split_windows_path_nonempty (path : string) :
  match_windows_pattern path = true -> split_windows_path path <> [].
Proof.
  intros H.
  destruct (match_windows_pattern_inv path H) as (l & c & t & -> & Hl).
  unfold split_windows_path, startswith, char_at_is.
  cbn [String.prefix String.length String.get take drop Nat.leb andb].
  destruct (ascii_dec "\"%char l) as [E|E].
  { subst l. discriminate Hl. }
  cbn [Ascii.eqb Bool.eqb andb].
  set (cs := list_ascii_of_string _).
  destruct (windows_steps_keep_parts cs ([String l ":"], "")) as [extra He].
  destruct (fold_left windows_char_step cs ([String l ":"], "")) as [parts curr].
  simpl in He. subst parts.
  destruct (truthy curr); simpl; discriminate.
Qed.

Lemma split_other_path_loop_nonempty (path : string) (allparts : list string) :
  split_other_path_loop path allparts <> [].
Proof.
  funelim (split_other_path_loop path allparts); try discriminate.
  assumption.
Qed.

(** C10: [split_path] is total. The generic splitter is defined by
    recursion on the length of the path, which every turn of its loop
    that goes on makes strictly smaller, so the loop ends on every input;
    and whatever the input is (the empty string, a string that matches
    neither pattern, a run of separators), the list returned has at
    least one segment. *)
Theorem split_path_total_nonempty (path : string) :
  exists seg rest, split_path path = seg :: rest.
Proof.
  assert (Hne : split_path path <> []).
  { unfold split_path, detect_filepath_type.
    destruct (match_windows_pattern path) eqn:Hw.
    - now apply split_windows_path_nonempty.
    - destruct (match_linux_pattern path);
        apply split_other_path_loop_nonempty. }
  destruct (split_path path) as [|seg rest]; [contradiction|].
  now exists seg, rest.
Qed.

(** The inputs that C10 names, evaluated. *)
Example split_path_empty : split_path "" = [""].
Proof. reflexivity. Qed.

Example split_path_neither_pattern :
  split_path "archives/2024/site-a" = ["archives"; "2024"; "site-a"].
Proof. reflexivity. Qed.

Example split_path_separators : split_path "///" = ["///"].
Proof. reflexivity. Qed.

(** C8, as stated, fails: the one segment that [split_path] returns for
    the drive-only input is not the drive token. The Windows pattern
    asks for a character after the backslash, so the input is of no
    known type and [split_windows_path], which would give the token, is
    not the function that splits it. *)
Lemma split_path_drive_not_token :
  split_path "C:\" <> ["C:"]
  /\ detect_filepath_type "C:\" = Unknown
  /\ split_windows_path "C:\" = ["C:"].
Proof.
  split; [|split]; [|reflexivity|reflexivity].
  intros H. vm_compute in H. discriminate H.
Qed.

(** C8, amended: for the drive-only input, a letter, a colon and one
    backslash, [split_path] returns exactly one segment and nothing
    after it, and that segment is the input as it was written, the
    letter, the colon and the separator: the generic splitter finds no
    slash in it and returns it whole. *)
Theorem split_path_drive_only :
  split_path "C:\" = ["C:\"] /\ List.length (split_path "C:\") = 1.
Proof. split; reflexivity. Qed.

(** C7, as stated, fails: the re-rooted path is not the one the claim
    gives. The drive token of the input is one of the joined segments
    and shows in the result, while the path of the claim has no such
    component. *)
Lemma db_path_double_prefix_refuted :
  db_path_to_user_path "C:\PPDO\Records\2024\ABC"
    <> "N:\PPDO\Records\PPDO\Records\2024\ABC"
  /\ contains "C:" (db_path_to_user_path "C:\PPDO\Records\2024\ABC") = true
  /\ contains "C:" "N:\PPDO\Records\PPDO\Records\2024\ABC" = false.
Proof.
  split; [|split]; [|reflexivity|reflexivity].
  intros H. apply String.eqb_eq in H. vm_compute in H. discriminate H.
Qed.

(** C7, amended: the input splits into the five segments of the claim,
    drive token first, and the result is the mount prefix joined with
    all five of them by [os.path.join]: the prefix, then each segment
    after a slash, the drive token included. *)
Theorem db_path_to_user_path_windows_example :
  split_path "C:\PPDO\Records\2024\ABC"
    = ["C:"; "PPDO"; "Records"; "2024"; "ABC"]
  /\ db_path_to_user_path "C:\PPDO\Records\2024\ABC"
     = PosixPath.join FILE_SERVER_LOCATION
         ["C:"; "PPDO"; "Records"; "2024"; "ABC"]
  /\ db_path_to_user_path "C:\PPDO\Records\2024\ABC"
     = "N:\PPDO\Records\/C:/PPDO/Records/2024/ABC".
Proof. repeat split; reflexivity. Qed.

End PathProps.

(** ** The retry wrapper *)

Module ClerkProps.
Import PyStr Clerk.

Lemma warnings_issued_app (t u : list event) :
  warnings_issued (t ++ u) = (warnings_issued t ++ warnings_issued u)%list.
Proof. unfold warnings_issued. apply flat_map_app. Qed.

Lemma call_returns {R H A : Type} (ev : event) (op : R -> outcome A * R)
  (w : world R H) (a : A) (r1 : R) :
  op (remote w) = (Returns a, r1) ->
  call ev op w
  = (Return a,
     {| remote := r1; trace := (trace w ++ [ev])%list; heap := heap w |}).
Proof. intros Hop. unfold call. now rewrite Hop. Qed.

Lemma call_raises {R H A : Type} (ev : event) (op : R -> outcome A * R)
  (w : world R H) (e : string) (r1 : R) :
  op (remote w) = (Raises e, r1) ->
  call ev op w
  = (Raise e,
     {| remote := r1; trace := (trace w ++ [ev])%list; heap := heap w |}).
Proof. intros Hop. unfold call. now rewrite Hop. Qed.

(** Under the filter of [change_project_pm.py] a warning that is issued
    is not shown; under the default filters of the batch program the
    warnings issued are the ones to show. *)
Lemma ignore_filter_shows_nothing (t : list event) :
  warnings_shown FilterIgnore t = []
  /\ warnings_shown FilterDefault t = warnings_issued t.
Proof. split; reflexivity. Qed.

Section Turns.
Context {R H A : Type}.
Variable fm : fm_server R.
Variable attempts : nat.
Variable server_method : M (R:=R) (H:=H) A.

(** No turn of the loop of [_auto_relogin_fm] falls through to a next
    one: whatever the method does, the turn returns or raises. *)
Lemma relogin_turn_leaves (attempted : nat) (w : world R H) :
  match relogin_turn fm attempts server_method attempted w with
  | (Return (NextTurn _), _) => False
  | _ => True
  end.
Proof.
  unfold relogin_turn, try_except, bind, ret, raise.
  destruct (server_method w) as [[v|e|] w1]; simpl; auto.
  destruct (attempts <=? attempted + 1)%nat; auto.
  destruct (contains "952" e); simpl.
  - unfold fm_login, call.
    destruct (login fm (remote w1)) as [[[]|e'] r']; auto.
    destruct (contains "401" e); simpl; auto.
  - destruct (contains "401" e); simpl; auto.
Qed.

(** So the first turn decides, and one turn of fuel is enough. *)
Lemma auto_relogin_single_turn (fuel : nat) (w : world R H) :
  _auto_relogin_fm fm attempts (S fuel) server_method w
  = _auto_relogin_fm fm attempts 1 server_method w.
Proof.
  unfold _auto_relogin_fm. simpl. unfold bind.
  pose proof (relogin_turn_leaves 0 w) as Hturn.
  destruct (relogin_turn fm attempts server_method 0 w) as [[[s|a]|e|] w'];
    [contradiction | reflexivity ..].
Qed.

Lemma auto_relogin_returns (fuel : nat) (w w1 : world R H) (v : A) :
  server_method w = (Return v, w1) ->
  _auto_relogin_fm fm attempts (S fuel) server_method w = (Return (Some v), w1).
Proof.
  intros Hm. rewrite auto_relogin_single_turn.
  unfold _auto_relogin_fm, while_true, relogin_turn, try_except, bind, ret.
  now rewrite Hm.
Qed.

(** A session-expired fault is raised again in the first turn too, once
    the login is done. *)
Lemma auto_relogin_expired_fault (fuel : nat) (w w1 : world R H) (e : string)
  (r2 : R) :
  server_method w = (Raise e, w1) ->
  (attempts <=? 1)%nat = false ->
  contains "952" e = true ->
  contains "401" e = false ->
  login fm (remote w1) = (Returns tt, r2) ->
  _auto_relogin_fm fm attempts (S fuel) server_method w
  = (Raise e, {| remote := r2; trace := (trace w1 ++ [EvLogin])%list;
                 heap := heap w1 |}).
Proof.
  intros Hm Hb H952 H401 Hl. rewrite auto_relogin_single_turn.
  unfold _auto_relogin_fm, while_true, relogin_turn, try_except, bind, ret,
    raise, fm_login, call.
  rewrite Hm. simpl. rewrite Hb, H952, Hl, H401. reflexivity.
Qed.

End Turns.

(** C6: when the first call of the remote operation raises a fault with
    401 in its text, the wrapper returns [None] to the caller, it does
    not raise, and it issues the no-match warning through [warnings.warn].
    A text that has 952 in it as well makes the wrapper log in first: the
    statement covers that case when the login returns. *)
Theorem no_match_returns_none {R H A : Type} (fm : fm_server R)
  (server_method : M (R:=R) (H:=H) A) (fuel : nat) (w w1 : world R H)
  (e : string) :
  server_method w = (Raise e, w1) ->
  contains "401" e = true ->
  (contains "952" e = false
   \/ exists r2, login fm (remote w1) = (Returns tt, r2)) ->
  exists w2,
    _auto_relogin_fm fm 3 (S fuel) server_method w = (Return None, w2)
    /\ warnings_issued (trace w2)
       = (warnings_issued (trace w1) ++ [warning_401])%list
    /\ heap w2 = heap w1.
Proof.
  intros Hm H401 Hlogin. rewrite auto_relogin_single_turn.
  unfold _auto_relogin_fm, while_true, relogin_turn, try_except, bind, ret,
    raise, emit, fm_login, call.
  rewrite Hm. simpl. rewrite H401.
  destruct (contains "952" e) eqn:H952.
  - destruct Hlogin as [Hf|[r2 Hl]]; [discriminate|].
    rewrite Hl. simpl. eexists. split; [reflexivity|]. simpl.
    rewrite !warnings_issued_app. simpl. rewrite app_nil_r. now split.
  - simpl. eexists. split; [reflexivity|]. simpl.
    rewrite warnings_issued_app. now split.
Qed.

Definition no_match_fault : string :=
  "FileMaker Server returned error 401, No records match the request".

Definition expired_fault : string :=
  "FileMaker Server returned error 952, Invalid FileMaker Data API token".

Definition other_fault : string :=
  "FileMaker Server returned error 802, Unable to open file".

Definition a_project : record := {|
  recordId := "7";
  ID_Primary := "4242";
  ProjectNumber := "1234";
  ProjectName := "Site A";
  Notes := "";
  ID_ProjectManager := ""
|}.

Definition number_query : query := [[(PROJECT_NUMBER_FIELD, "1234")]].

Definition world_of (script : list reply) : world (list reply) unit :=
  {| remote := script; trace := []; heap := tt |}.

Lemma no_match_returns_none_witness :
  exists w2,
    _auto_relogin_fm scripted 3 1 (fm_find scripted number_query)
      (world_of [ReplyFault no_match_fault]) = (Return None, w2)
    /\ warnings_issued (trace w2) = [warning_401]
    /\ heap w2 = tt.
Proof.
  apply (no_match_returns_none scripted (fm_find scripted number_query) 0
           (world_of [ReplyFault no_match_fault])
           {| remote := []; trace := [EvFind number_query]; heap := tt |}
           no_match_fault).
  - reflexivity.
  - reflexivity.
  - left. reflexivity.
Defined.

(** C1, at the failing input: the find raises a session-expired fault
    and would return the project at the next call. The wrapper logs in
    once and raises the fault again; the find is called once, and the
    reply that holds the project is still waiting. *)
Theorem session_expired_not_retried (fuel : nat) :
  _auto_relogin_fm scripted 3 (S fuel) (fm_find scripted number_query)
    (world_of [ReplyFault expired_fault; ReplyOk; ReplyFound [a_project]])
  = (Raise expired_fault,
     {| remote := [ReplyFound [a_project]];
        trace := [EvFind number_query; EvLogin];
        heap := tt |}).
Proof. rewrite auto_relogin_single_turn. reflexivity. Qed.

(** C2, as stated, fails: the find raises a fault with neither code in
    its text and would return the project at the next call. With a
    budget of three attempts the wrapper raises the fault again after
    the first one; the find is called once and the reply that holds the
    project is still waiting. *)
Lemma other_fault_not_retried :
  _auto_relogin_fm scripted 3 3 (fm_find scripted number_query)
    (world_of [ReplyFault other_fault; ReplyFound [a_project]])
  = (Raise other_fault,
     {| remote := [ReplyFound [a_project]];
        trace := [EvFind number_query];
        heap := tt |}).
Proof. reflexivity. Qed.

(** C2, amended: a fault whose text has neither 952 nor 401 in it is not
    retried. The wrapper raises that same fault to the caller from the
    first turn, in the state the one call of the operation left,
    whatever the attempt budget is. *)
Theorem other_fault_raised_at_once {R H A : Type} (fm : fm_server R)
  (attempts fuel : nat) (server_method : M (R:=R) (H:=H) A)
  (w w1 : world R H) (e : string) :
  server_method w = (Raise e, w1) ->
  contains "952" e = false ->
  contains "401" e = false ->
  _auto_relogin_fm fm attempts (S fuel) server_method w = (Raise e, w1).
Proof.
  intros Hm H952 H401. rewrite auto_relogin_single_turn.
  unfold _auto_relogin_fm, while_true, relogin_turn, try_except, bind, ret,
    raise.
  rewrite Hm. destruct (attempts <=? 0 + 1)%nat; [reflexivity|].
  now rewrite H952, H401.
Qed.

Lemma other_fault_raised_at_once_witness :
  _auto_relogin_fm scripted 3 1 (fm_find scripted number_query)
    (world_of [ReplyFault other_fault; ReplyFound [a_project]])
  = (Raise other_fault,
     {| remote := [ReplyFound [a_project]];
        trace := [EvFind number_query];
        heap := tt |}).
Proof.
  apply (other_fault_raised_at_once scripted 3 0
           (fm_find scripted number_query)
           (world_of [ReplyFault other_fault; ReplyFound [a_project]])
           {| remote := [ReplyFound [a_project]];
              trace := [EvFind number_query]; heap := tt |}
           other_fault);
    reflexivity.
Defined.

End ClerkProps.

(** ** Facts on strings *)

Module StrProps.
Import PyStr.

Lemma prefix_app (s t : string) : String.prefix s (s ++ t) = true.
Proof.
  induction s as [|a s IH]; simpl.
  - now destruct t.
  - destruct (ascii_dec a a); [exact IH | congruence].
Qed.

Lemma length_app (s t : string) :
  String.length (s ++ t) = String.length s + String.length t.
Proof. induction s as [|a s IH]; simpl; [reflexivity | now rewrite IH]. Qed.

Lemma drop_app (s t : string) : drop (String.length s) (s ++ t) = t.
Proof. induction s as [|a s IH]; simpl; [now destruct t | exact IH]. Qed.

Lemma startswith_app (s t : string) : startswith s (s ++ t) = true.
Proof. apply prefix_app. Qed.

Lemma endswith_app (s t : string) : endswith t (s ++ t) = true.
Proof.
  unfold endswith. rewrite length_app.
  replace (String.length s + String.length t - String.length t)
    with (String.length s) by lia.
  rewrite drop_app, String.eqb_refl, andb_true_r.
  apply Nat.leb_le. lia.
Qed.

Lemma app_assoc (s t u : string) : (s ++ t) ++ u = s ++ (t ++ u).
Proof. induction s as [|a s IH]; simpl; [reflexivity | now rewrite IH]. Qed.

Lemma contains_of_prefix (n h : string) :
  String.prefix n h = true -> contains n h = true.
Proof. destruct h; simpl; intros ->; reflexivity. Qed.

Lemma contains_here (n t : string) : contains n (n ++ t) = true.
Proof. apply contains_of_prefix, prefix_app. Qed.

Lemma contains_app_r (n s t : string) :
  contains n t = true -> contains n (s ++ t) = true.
Proof.
  intros Ht. induction s as [|a s IH]; simpl; [exact Ht|].
  rewrite IH. apply orb_true_r.
Qed.

End StrProps.

(** ** The notes of a manager change *)

Module PmChangeProps.
Import PyStr Clerk PmChange.

(** The two notes of the audit scenario. *)
Example note_set_to :
  _generate_notes_str "2024-01-05 10:00:00" None "Jane Doe"
  = "Project PM set to Jane Doe on 2024-01-05 10:00:00".
Proof. reflexivity. Qed.

Example note_changed_from :
  _generate_notes_str "2024-01-05 10:00:00" (Some "John Smith") "Jane Doe"
  = "Project PM changed from John Smith to Jane Doe on 2024-01-05 10:00:00".
Proof. reflexivity. Qed.

(** C3, as stated, fails: with notes already on the project, the value
    written does not start with the new line; the old notes come
    first. *)
Lemma notes_not_prepended :
  startswith
    (_generate_notes_str "2024-01-05 10:00:00" None "Jane Doe")
    (new_notes_value "2024-01-05 10:00:00" "Kickoff held 2023-11-02" None
       "Jane Doe") = false
  /\ new_notes_value "2024-01-05 10:00:00" "Kickoff held 2023-11-02" None
       "Jane Doe"
     = "Kickoff held 2023-11-02" ++ nl
         ++ "Project PM set to Jane Doe on 2024-01-05 10:00:00".
Proof. split; reflexivity. Qed.

(** C3, amended: when the project has notes, the value written to the
    notes field is the old notes, a newline, and the new audit line. It
    starts with the old notes in full and ends with the new line: the
    line is put below what was there, and nothing is replaced or
    dropped. The edit call of the workflow carries that value. *)
Theorem notes_appended_below {R H : Type} (fm : fm_server R) (fuel : nat)
  (datestamp : string) (project_to_change : record)
  (old_pm_name : option string) (target_pm : person) (w : world R H) :
  truthy (Notes project_to_change) = true ->
  let target_pm_name := NameFirst target_pm ++ " " ++ NameLast target_pm in
  let note := _generate_notes_str datestamp old_pm_name target_pm_name in
  let new_notes :=
    new_notes_value datestamp (Notes project_to_change) old_pm_name
      target_pm_name in
  new_notes = Notes project_to_change ++ nl ++ note
  /\ startswith (Notes project_to_change) new_notes = true
  /\ endswith (nl ++ note) new_notes = true
  /\ exists rest,
       trace (snd (change_project_pm_write fm (S fuel) datestamp
                     project_to_change old_pm_name target_pm w))
       = (trace w
            ++ EvEditRecord (recordId project_to_change)
                 [(PROJECT_NOTES_FIELD,
                   (Notes project_to_change ++ nl ++ note)%string);
                  (PROJECT_PM_ID_FIELD, person_ID_Primary target_pm)]
            :: rest)%list.
Proof.
  intros Hnotes target_pm_name note new_notes.
  assert (Hnew : new_notes = Notes project_to_change ++ nl ++ note).
  { unfold new_notes, new_notes_value. now rewrite Hnotes. }
  split; [exact Hnew|]. rewrite Hnew.
  split; [apply StrProps.startswith_app|].
  split; [apply StrProps.endswith_app|].
  unfold change_project_pm_write, make_change_to_project_data.
  rewrite ClerkProps.auto_relogin_single_turn.
  fold target_pm_name. fold new_notes. rewrite Hnew.
  unfold _auto_relogin_fm, while_true, relogin_turn, try_except, bind, ret,
    raise, emit, fm_edit_record, fm_login, call.
  destruct (edit_record fm _ _ (remote w)) as [[b|e] r1]; simpl.
  - now exists [].
  - destruct (contains "952" e); simpl.
    + destruct (login fm r1) as [[[]|e'] r2]; simpl.
      * destruct (contains "401" e); simpl; rewrite <- !List.app_assoc;
          simpl; eexists; reflexivity.
      * rewrite <- !List.app_assoc; simpl; eexists; reflexivity.
    + destruct (contains "401" e); simpl.
      * rewrite <- !List.app_assoc; simpl; eexists; reflexivity.
      * now exists [].
Qed.

Definition noted_project : record := {|
  recordId := "7";
  ID_Primary := "4242";
  ProjectNumber := "1234";
  ProjectName := "Site A";
  Notes := "Kickoff held 2023-11-02";
  ID_ProjectManager := ""
|}.

Definition jane : person := {|
  person_ID_Primary := "15";
  NameFirst := "Jane";
  NameLast := "Doe"
|}.

Lemma notes_appended_below_witness :
  truthy (Notes noted_project) = true
  /\ new_notes_value "2024-01-05 10:00:00" (Notes noted_project) None
       "Jane Doe"
     = Notes noted_project ++ nl
         ++ _generate_notes_str "2024-01-05 10:00:00" None "Jane Doe".
Proof.
  split; [reflexivity|].
  apply (notes_appended_below scripted 0 "2024-01-05 10:00:00" noted_project
           None jane (ClerkProps.world_of [ReplyBool true])).
  reflexivity.
Defined.

End PmChangeProps.

(** ** The batch loop *)

Module BatchProps.
Import PyStr Clerk Batch.

(** The matching step as the specification words it: the key trimmed on
    both sides, the source value and every remote result, and the rows
    kept whose trimmed key equals the trimmed source key. *)
Definition spec_matching_rows (proj_number : string) (fs : foundset)
  : list record :=
  strip_project_numbers
    (filter (fun r => strip (ProjectNumber r) =? strip proj_number) fs).

Definition edit_calls (t : list event) : nat :=
  List.length
    (filter (fun ev => match ev with EvEditRecord _ _ => true | _ => false end)
       t).

Lemma filter_map_comm {A B : Type} (p : B -> bool) (f : A -> B) (l : list A) :
  filter p (map f l) = map f (filter (fun x => p (f x)) l).
Proof.
  induction l as [|x l IH]; simpl; [reflexivity|].
  destruct (p (f x)); simpl; now rewrite IH.
Qed.

Lemma matching_rows_eq (proj_number : string) (fs : foundset) :
  matching_rows proj_number fs
  = strip_project_numbers
      (filter (fun r => strip (ProjectNumber r) =? proj_number) fs).
Proof.
  unfold matching_rows, rows_with_number, strip_project_numbers.
  now rewrite filter_map_comm.
Qed.

(** C4, as stated, fails: a source key with a blank before it matches
    no remote row in the program, though the two keys are equal once
    both are trimmed. *)
Lemma source_key_not_trimmed :
  matching_rows " 1234" [ClerkProps.a_project] = []
  /\ spec_matching_rows " 1234" [ClerkProps.a_project]
     = [ClerkProps.a_project].
Proof. split; reflexivity. Qed.

(** C4, amended: the key of every remote result is normalized as a
    whitespace-trimmed string; the source key is taken as it is; and the
    result set is filtered to the rows whose trimmed key is string-equal
    to the source key. Every row kept carries the source key. *)
Theorem matching_rows_trims_remote_key (proj_number : string) (fs : foundset) :
  matching_rows proj_number fs
  = strip_project_numbers
      (filter (fun r => strip (ProjectNumber r) =? proj_number) fs)
  /\ Forall (fun r => ProjectNumber r = proj_number)
       (matching_rows proj_number fs).
Proof.
  split.
  - apply matching_rows_eq.
  - unfold matching_rows, rows_with_number. apply Forall_forall.
    intros r Hr. apply filter_In in Hr as [_ Hr].
    now apply String.eqb_eq.
Qed.

(** On a source key that has no blanks around it the two agree. *)
Lemma matching_rows_on_trimmed_key (proj_number : string) (fs : foundset) :
  strip proj_number = proj_number ->
  matching_rows proj_number fs = spec_matching_rows proj_number fs.
Proof.
  intros Hs. unfold spec_matching_rows. rewrite Hs.
  apply matching_rows_eq.
Qed.

(** *** The tally *)

Section Tally.
Context {R : Type}.
Variable fm : fm_server R.

(** A computation that leaves [projects_not_in_db] as it found it. *)
Definition keeps_db {A : Type} (m : Clerk.M (R:=R) (H:=UpdateStatus) A)
  : Prop :=
  forall w,
    projects_not_in_db (heap (snd (m w))) = projects_not_in_db (heap w).

Lemma keeps_ret {A} (a : A) : keeps_db (ret a).
Proof. intros w. reflexivity. Qed.

Lemma keeps_raise {A} (e : string) : keeps_db (raise (A:=A) e).
Proof. intros w. reflexivity. Qed.

Lemma keeps_emit (ev : event) : keeps_db (emit ev).
Proof. intros w. reflexivity. Qed.

Lemma keeps_call {A} (ev : event) (op : R -> outcome A * R) :
  keeps_db (call ev op).
Proof. intros w. unfold call. now destruct (op (remote w)). Qed.

Lemma keeps_get_heap : keeps_db get_heap.
Proof. intros w. reflexivity. Qed.

Lemma keeps_modify (f : UpdateStatus -> UpdateStatus) :
  (forall s, projects_not_in_db (f s) = projects_not_in_db s) ->
  keeps_db (modify_heap f).
Proof. intros Hf w. apply Hf. Qed.

Lemma keeps_bind {A B} (m : Clerk.M A) (k : A -> Clerk.M B) :
  keeps_db m -> (forall a, keeps_db (k a)) -> keeps_db (bind m k).
Proof.
  intros Hm Hk w. unfold bind. specialize (Hm w).
  destruct (m w) as [[a|e|] w1]; simpl in *; [|assumption..].
  now rewrite Hk.
Qed.

Lemma keeps_try {A} (m : Clerk.M A) (h : string -> Clerk.M A) :
  keeps_db m -> (forall e, keeps_db (h e)) -> keeps_db (try_except m h).
Proof.
  intros Hm Hh w. unfold try_except. specialize (Hm w).
  destruct (m w) as [[a|e|] w1]; simpl in *; [assumption| |assumption].
  now rewrite Hh.
Qed.

Lemma keeps_while {S A} (body : S -> Clerk.M (loop_step S A)) (fuel : nat) :
  (forall s, keeps_db (body s)) -> forall s, keeps_db (while_true fuel body s).
Proof.
  intros Hbody. induction fuel as [|fuel IH]; intros s; simpl.
  - intros w. reflexivity.
  - apply keeps_bind; [apply Hbody|].
    intros [s'|a]; [apply IH | apply keeps_ret].
Qed.

Lemma keeps_auto_relogin {A} (attempts fuel : nat) (server_method : Clerk.M A) :
  keeps_db server_method ->
  keeps_db (_auto_relogin_fm fm attempts fuel server_method).
Proof.
  intros Hm. unfold _auto_relogin_fm. apply keeps_while. intros attempted.
  unfold relogin_turn. apply keeps_try.
  - apply keeps_bind; [assumption | intros; apply keeps_ret].
  - intros e. destruct (_ <=? _)%nat; [apply keeps_raise|].
    apply keeps_bind.
    + destruct (contains "952" e); [apply keeps_call | apply keeps_ret].
    + intros _. destruct (contains "401" e); [|apply keeps_raise].
      apply keeps_bind; [apply keeps_emit | intros; apply keeps_ret].
Qed.

Lemma keeps_not_found (proj_number : string) :
  keeps_db (not_found_in_fmp (R:=R) proj_number).
Proof.
  apply keeps_bind; [apply keeps_emit|].
  intros _. now apply keeps_modify.
Qed.

Lemma keeps_process_row (fuel : nat) (row : source_row) :
  keeps_db (process_row fm fuel row).
Proof.
  unfold process_row. apply keeps_try; [|intros; apply keeps_emit].
  apply keeps_bind; [apply keeps_auto_relogin, keeps_call|].
  intros [fs|]; [|apply keeps_not_found].
  destruct (negb (foundset_bool fm fs)); [apply keeps_not_found|].
  destruct fs as [|found fs']; [apply keeps_raise|].
  destruct (matching_rows (number row) (found :: fs')) as [|r1 [|r2 rest]].
  - apply keeps_not_found.
  - apply keeps_bind; [apply keeps_auto_relogin, keeps_call|].
    intros fs2.
    match goal with |- keeps_db (if ?b then _ else _) => destruct b end.
    + apply keeps_bind; [apply keeps_emit|].
      intros _. now apply keeps_modify.
    + destruct fs2 as [[|record fs2]|]; try apply keeps_ret.
      apply keeps_bind; [apply keeps_auto_relogin, keeps_call|].
      intros [[|]|]; try apply keeps_ret. now apply keeps_modify.
  - apply keeps_bind; [apply keeps_emit|].
    intros _. now apply keeps_modify.
Qed.

Lemma keeps_for_rows (fuel : nat) (rows : list source_row) :
  keeps_db (for_rows fm fuel rows).
Proof.
  induction rows as [|row rest IH]; simpl; [apply keeps_ret|].
  apply keeps_bind; [apply keeps_process_row | intros _; exact IH].
Qed.

Lemma keeps_main_loop (fuel : nat) (rows : list source_row) :
  keeps_db (main_loop fm fuel rows).
Proof.
  unfold main_loop, log.
  apply keeps_bind; [apply keeps_for_rows | intros _].
  apply keeps_bind; [apply keeps_emit | intros _].
  apply keeps_bind; [apply keeps_get_heap | intros status].
  apply keeps_bind; [apply keeps_emit | intros _; apply keeps_emit].
Qed.

(** A computation that is never short of fuel. *)
Definition finishes {A : Type} (m : Clerk.M (R:=R) (H:=UpdateStatus) A)
  : Prop :=
  forall w, fst (m w) <> OutOfFuel.

Lemma finishes_ret {A} (a : A) : finishes (ret a).
Proof. intros w; discriminate. Qed.

Lemma finishes_raise {A} (e : string) : finishes (raise (A:=A) e).
Proof. intros w; discriminate. Qed.

Lemma finishes_emit (ev : event) : finishes (emit ev).
Proof. intros w; discriminate. Qed.

Lemma finishes_modify (f : UpdateStatus -> UpdateStatus) :
  finishes (modify_heap f).
Proof. intros w; discriminate. Qed.

Lemma finishes_call {A} (ev : event) (op : R -> outcome A * R) :
  finishes (call ev op).
Proof.
  intros w. unfold call. destruct (op (remote w)) as [[a|e] r1]; discriminate.
Qed.

Lemma finishes_bind {A B} (m : Clerk.M A) (k : A -> Clerk.M B) :
  finishes m -> (forall a, finishes (k a)) -> finishes (bind m k).
Proof.
  intros Hm Hk w. unfold bind. specialize (Hm w).
  destruct (m w) as [[a|e|] w1]; simpl in *;
    [apply Hk | discriminate | contradiction].
Qed.

Lemma finishes_try {A} (m : Clerk.M A) (h : string -> Clerk.M A) :
  finishes m -> (forall e, finishes (h e)) -> finishes (try_except m h).
Proof.
  intros Hm Hh w. unfold try_except. specialize (Hm w).
  destruct (m w) as [[a|e|] w1]; simpl in *;
    [discriminate | apply Hh | contradiction].
Qed.

Lemma finishes_auto_relogin {A} (attempts fuel : nat)
  (server_method : Clerk.M A) :
  finishes server_method ->
  finishes (_auto_relogin_fm fm attempts (S fuel) server_method).
Proof.
  intros Hm w. rewrite ClerkProps.auto_relogin_single_turn.
  unfold _auto_relogin_fm, while_true.
  assert (Hturn : finishes (relogin_turn fm attempts server_method 0)).
  { unfold relogin_turn. apply finishes_try.
    - apply finishes_bind; [assumption | intros; apply finishes_ret].
    - intros e. destruct (_ <=? _)%nat; [apply finishes_raise|].
      apply finishes_bind.
      + destruct (contains "952" e); [apply finishes_call | apply finishes_ret].
      + intros _. destruct (contains "401" e); [|apply finishes_raise].
        apply finishes_bind; [apply finishes_emit | intros; apply finishes_ret]. }
  pose proof (ClerkProps.relogin_turn_leaves fm attempts server_method 0 w)
    as Hleave.
  specialize (Hturn w). unfold bind.
  destruct (relogin_turn fm attempts server_method 0 w) as [[[s|a]|e|] w1];
    simpl in *; [contradiction | discriminate | discriminate | contradiction].
Qed.

Lemma finishes_not_found (proj_number : string) :
  finishes (not_found_in_fmp (R:=R) proj_number).
Proof.
  apply finishes_bind; [apply finishes_emit|].
  intros _. apply finishes_modify.
Qed.

(** A row never stops the batch: its turn returns, whatever the server
    does. *)
Lemma process_row_returns (fuel : nat) (row : source_row)
  (w : world R UpdateStatus) :
  fst (process_row fm (S fuel) row w) = Return tt.
Proof.
  unfold process_row.
  match goal with |- fst (try_except ?m ?h w) = _ =>
    assert (Hbody : finishes m); [|set (body := m) in *] end.
  { apply finishes_bind; [apply finishes_auto_relogin, finishes_call|].
    intros [fs|]; [|apply finishes_not_found].
    destruct (negb (foundset_bool fm fs)); [apply finishes_not_found|].
    destruct fs as [|found fs']; [apply finishes_raise|].
    destruct (matching_rows (number row) (found :: fs')) as [|r1 [|r2 rest]].
    - apply finishes_not_found.
    - apply finishes_bind; [apply finishes_auto_relogin, finishes_call|].
      intros fs2.
      match goal with |- finishes (if ?b then _ else _) => destruct b end.
      + apply finishes_bind; [apply finishes_emit|].
        intros _. apply finishes_modify.
      + destruct fs2 as [[|record fs2]|]; try apply finishes_ret.
        apply finishes_bind; [apply finishes_auto_relogin, finishes_call|].
        intros [[|]|]; first [apply finishes_modify | apply finishes_ret].
    - apply finishes_bind; [apply finishes_emit|].
      intros _. apply finishes_modify. }
  unfold try_except. specialize (Hbody w).
  destruct (body w) as [[[]|e|] w1]; simpl in *;
    [reflexivity | reflexivity | contradiction].
Qed.

Lemma for_rows_returns (fuel : nat) (rows : list source_row)
  (w : world R UpdateStatus) :
  fst (for_rows fm (S fuel) rows w) = Return tt.
Proof.
  revert w; induction rows as [|row rest IH]; intros w; simpl;
    [reflexivity|].
  unfold bind. pose proof (process_row_returns fuel row w) as Hrow.
  destruct (process_row fm (S fuel) row w) as [res w1]; simpl in Hrow.
  subst res. apply IH.
Qed.

Lemma main_loop_returns (fuel : nat) (rows : list source_row)
  (w : world R UpdateStatus) :
  fst (main_loop fm (S fuel) rows w) = Return tt.
Proof.
  unfold main_loop, bind. pose proof (for_rows_returns fuel rows w) as Hrows.
  destruct (for_rows fm (S fuel) rows w) as [res w1]; simpl in Hrows.
  subst res. reflexivity.
Qed.

End Tally.

Lemma summary_renders_not_in_db (st : UpdateStatus) :
  projects_not_in_db st = 0 ->
  contains ("Projects Not Found in Database: 0" ++ nl) (UpdateStatus_str st)
  = true.
Proof.
  intros H0. unfold UpdateStatus_str. rewrite H0.
  do 2 apply StrProps.contains_app_r.
  exact (StrProps.contains_here ("Projects Not Found in Database: 0" ++ nl) _).
Qed.

(** *** One row, one match *)

Definition site_a_row : source_row := {|
  number := "1234";
  file_server_location := "archives/2024/site-a"
|}.

Definition blank_key_row : source_row := {|
  number := " 1234";
  file_server_location := "archives/2024/site-a"
|}.

Definition edit_fails : world (list reply) UpdateStatus :=
  initial_world
    [ReplyFound [ClerkProps.a_project]; ReplyFound [ClerkProps.a_project];
     ReplyFault ClerkProps.other_fault].

Definition edit_succeeds : world (list reply) UpdateStatus :=
  initial_world
    [ReplyFound [ClerkProps.a_project]; ReplyFound [ClerkProps.a_project];
     ReplyBool true].

(** C5, as stated, fails, in two ways. In both runs one remote project
    matches the trimmed key and the lookup by primary key has one row
    ready. When the edit call faults, one edit call is issued and
    nothing is counted or appended. When the source key has a blank
    before it, the row is counted as not found and no edit call is
    issued. *)
Lemma single_match_not_always_counted :
  (spec_matching_rows (number site_a_row) [ClerkProps.a_project]
   = [ClerkProps.a_project]
   /\ process_row scripted 1 site_a_row edit_fails
      = (Return tt,
         {| remote := [];
            trace :=
              [EvFind [[(PROJECT_NUMBER_FIELD, "1234")]];
               EvFind [[(IDX_FIELD_NAME, "4242")]];
               EvEditRecord "7"
                 [(PROJECT_LOCATION_FIELD,
                   "N:\PPDO\Records\/archives/2024/site-a")];
               EvLog ERROR
                 ("Error processing project 1234: "
                    ++ ClerkProps.other_fault)];
            heap := UpdateStatus_init |}))
  /\ (spec_matching_rows (number blank_key_row) [ClerkProps.a_project]
      = [ClerkProps.a_project]
      /\ process_row scripted 1 blank_key_row edit_succeeds
         = (Return tt,
            {| remote := [ReplyFound [ClerkProps.a_project]; ReplyBool true];
               trace :=
                 [EvFind [[(PROJECT_NUMBER_FIELD, " 1234")]];
                  EvLog WARNING "Project  1234 not found in FileMaker."];
               heap := count_not_in_fmp UpdateStatus_init |})).
Proof. repeat split; reflexivity. Qed.

(** C5, amended: take a source row for which the find by project number
    returns a found set with exactly one row whose trimmed key equals
    the source key as it is, the find by that row's primary key returns
    exactly one row, and the edit call returns a true result. Then the
    turn of the row issues exactly one edit call, adds 1 to the count of
    updated locations and appends the source key to the list of
    modified projects. *)
Theorem single_match_updates {R : Type} (fm : fm_server R) (fuel : nat)
  (row : source_row) (w : world R UpdateStatus) (fs1 : foundset)
  (fmp_proj_num_row record : Clerk.record) (r1 r2 r3 : R) :
  find fm [[(PROJECT_NUMBER_FIELD, number row)]] (remote w)
    = (Returns fs1, r1) ->
  foundset_bool fm fs1 = true ->
  matching_rows (number row) fs1 = [fmp_proj_num_row] ->
  find fm [[(IDX_FIELD_NAME, ID_Primary fmp_proj_num_row)]] r1
    = (Returns [record], r2) ->
  foundset_bool fm [record] = true ->
  edit_record fm (recordId record)
    [(PROJECT_LOCATION_FIELD,
      PathNormalizer.db_path_to_user_path (file_server_location row))] r2
    = (Returns true, r3) ->
  exists w',
    process_row fm (S fuel) row w = (Return tt, w')
    /\ edit_calls (trace w') = edit_calls (trace w) + 1
    /\ project_locations_updated (heap w')
       = project_locations_updated (heap w) + 1
    /\ projects_modified (heap w')
       = (projects_modified (heap w) ++ [number row])%list
    /\ heap w' = count_updated (number row) (heap w).
Proof.
  intros Hfind1 Hbool1 Hmatch Hfind2 Hbool2 Hedit.
  destruct fs1 as [|found fs1']; [discriminate Hmatch|].
  set (q1 := [[(PROJECT_NUMBER_FIELD, number row)]]) in *.
  set (q2 := [[(IDX_FIELD_NAME, ID_Primary fmp_proj_num_row)]]) in *.
  set (changes :=
         [(PROJECT_LOCATION_FIELD,
           PathNormalizer.db_path_to_user_path (file_server_location row))])
    in *.
  set (w1 := {| remote := r1; trace := (trace w ++ [EvFind q1])%list;
                heap := heap w |}).
  set (w2 := {| remote := r2; trace := (trace w1 ++ [EvFind q2])%list;
                heap := heap w1 |}).
  set (w3 := {| remote := r3;
                trace := (trace w2 ++ [EvEditRecord (recordId record) changes])%list;
                heap := heap w2 |}).
  assert (E1 : projects_queried_by_number fm auto_login_attempts (S fuel)
                 (number row) w = (Return (Some (found :: fs1')), w1)).
  { apply ClerkProps.auto_relogin_returns.
    now apply ClerkProps.call_returns. }
  assert (E2 : projects_queried_by_id fm auto_login_attempts (S fuel)
                 (ID_Primary fmp_proj_num_row) w1
               = (Return (Some [record]), w2)).
  { apply ClerkProps.auto_relogin_returns.
    now apply ClerkProps.call_returns. }
  assert (E3 : make_change_to_project_data fm auto_login_attempts (S fuel)
                 (recordId record) changes w2 = (Return (Some true), w3)).
  { apply ClerkProps.auto_relogin_returns.
    now apply ClerkProps.call_returns. }
  exists {| remote := r3; trace := trace w3;
            heap := count_updated (number row) (heap w) |}.
  split.
  - unfold process_row, try_except.
    unfold bind at 1. rewrite E1. rewrite Hbool1. cbn [negb].
    rewrite Hmatch.
    unfold bind at 1. rewrite E2.
    unfold not_foundset. rewrite Hbool2. cbn [negb orb List.length Nat.ltb Nat.leb].
    unfold bind at 1. fold changes. rewrite E3.
    reflexivity.
  - simpl. unfold edit_calls. rewrite !filter_app, !length_app. simpl.
    repeat split; lia.
Qed.

Lemma single_match_updates_witness :
  exists w',
    process_row scripted 1 site_a_row edit_succeeds = (Return tt, w')
    /\ edit_calls (trace w') = 1
    /\ project_locations_updated (heap w') = 1
    /\ projects_modified (heap w') = ["1234"]
    /\ heap w' = count_updated "1234" UpdateStatus_init.
Proof.
  apply (single_match_updates scripted 0 site_a_row edit_succeeds
           [ClerkProps.a_project] ClerkProps.a_project ClerkProps.a_project
           [ReplyFound [ClerkProps.a_project]; ReplyBool true]
           [ReplyBool true] []);
    reflexivity.
Defined.

(** C9: [projects_not_in_db] starts at 0; no row of the batch and no step
    of the run changes it, from whatever state; so every run, which
    always comes to its end, leaves it at 0, and the summary that the run
    logs renders it, as its third line, with that value. *)
Theorem projects_not_in_db_stays_zero {R : Type} (fm : fm_server R)
  (fuel : nat) (rows : list source_row) :
  projects_not_in_db UpdateStatus_init = 0
  /\ (forall w,
        projects_not_in_db (heap (snd (for_rows fm fuel rows w)))
        = projects_not_in_db (heap w))
  /\ (forall r,
        let run := main_loop fm (S fuel) rows (initial_world r) in
        fst run = Return tt
        /\ projects_not_in_db (heap (snd run)) = 0
        /\ contains ("Projects Not Found in Database: 0" ++ nl)
             (UpdateStatus_str (heap (snd run))) = true).
Proof.
  split; [reflexivity|]. split; [apply keeps_for_rows|].
  intros r run.
  assert (H0 : projects_not_in_db (heap (snd run)) = 0).
  { unfold run. now rewrite keeps_main_loop. }
  split; [apply main_loop_returns|].
  split; [exact H0 | now apply summary_renders_not_in_db].
Qed.

End BatchProps.

(** * More of the programs *)

(** ** The wrapper, for every operation *)

Module ClerkMore.
Import PyStr Clerk.

(** What may follow the call of the operation in one invocation of
    [_auto_relogin_fm]: nothing, a login, the no-match warning, or a
    login and then the warning. *)
Definition after_call (extra : list event) : Prop :=
  extra = [] \/ extra = [EvLogin] \/ extra = [EvWarn warning_401]
  \/ extra = [EvLogin; EvWarn warning_401].

(** One invocation of [_auto_relogin_fm] on a server method calls that
    method exactly once, whatever the method does and whatever the
    budget is: the trace grows by the call, then by at most a login and
    at most a warning. The objects of the program are left alone, and
    the wrapper comes to an end. *)
Theorem wrapper_calls_once {R H A : Type} (fm : fm_server R)
  (attempts fuel : nat) (ev : event) (op : R -> outcome A * R)
  (w : world R H) :
  exists extra,
    after_call extra
    /\ trace (snd (_auto_relogin_fm fm attempts (S fuel) (call ev op) w))
       = (trace w ++ ev :: extra)%list
    /\ heap (snd (_auto_relogin_fm fm attempts (S fuel) (call ev op) w))
       = heap w
    /\ fst (_auto_relogin_fm fm attempts (S fuel) (call ev op) w)
       <> OutOfFuel.
Proof.
  rewrite ClerkProps.auto_relogin_single_turn.
  unfold _auto_relogin_fm, while_true, relogin_turn, try_except, bind, ret,
    raise, emit, fm_login, call, after_call.
  destruct (op (remote w)) as [[a|e] r1]; simpl.
  - exists []. repeat split; auto. discriminate.
  - destruct (attempts <=? 1)%nat; simpl.
    { exists []. repeat split; auto. discriminate. }
    destruct (contains "952" e); simpl.
    + destruct (login fm r1) as [[[]|e'] r2]; simpl.
      * destruct (contains "401" e); simpl.
        -- exists [EvLogin; EvWarn warning_401].
           rewrite <- !app_assoc. repeat split; auto. discriminate.
        -- exists [EvLogin].
           rewrite <- !app_assoc. repeat split; auto. discriminate.
      * exists [EvLogin].
        rewrite <- !app_assoc. repeat split; auto. discriminate.
    + destruct (contains "401" e); simpl.
      * exists [EvWarn warning_401].
        rewrite <- !app_assoc. repeat split; auto. discriminate.
      * exists []. repeat split; auto. discriminate.
Qed.

Section Shapes.
Context {R H A : Type}.
Variable fm : fm_server R.
Variable attempts : nat.

(** The no-match fault, with the world it leaves. *)
Lemma auto_relogin_no_match (fuel : nat) (server_method : M (R:=R) (H:=H) A)
  (w w1 : world R H) (e : string) :
  server_method w = (Raise e, w1) ->
  (attempts <=? 1)%nat = false ->
  contains "401" e = true ->
  contains "952" e = false ->
  _auto_relogin_fm fm attempts (S fuel) server_method w
  = (Return None,
     {| remote := remote w1;
        trace := (trace w1 ++ [EvWarn warning_401])%list;
        heap := heap w1 |}).
Proof.
  intros Hm Hb H401 H952. rewrite ClerkProps.auto_relogin_single_turn.
  unfold _auto_relogin_fm, while_true, relogin_turn, try_except, bind, ret,
    raise, emit.
  rewrite Hm. simpl. now rewrite Hb, H952, H401.
Qed.

(** The no-match fault whose text also holds 952: the login comes
    first, and when it returns the wrapper warns and gives [None]. *)
Lemma auto_relogin_no_match_after_login (fuel : nat)
  (server_method : M (R:=R) (H:=H) A) (w w1 : world R H) (e : string) (r2 : R) :
  server_method w = (Raise e, w1) ->
  (attempts <=? 1)%nat = false ->
  contains "401" e = true ->
  contains "952" e = true ->
  login fm (remote w1) = (Returns tt, r2) ->
  _auto_relogin_fm fm attempts (S fuel) server_method w
  = (Return None,
     {| remote := r2;
        trace := (trace w1 ++ [EvLogin; EvWarn warning_401])%list;
        heap := heap w1 |}).
Proof.
  intros Hm Hb H401 H952 Hlogin. rewrite ClerkProps.auto_relogin_single_turn.
  unfold _auto_relogin_fm, while_true, relogin_turn, try_except, bind, ret,
    raise, emit, fm_login, call.
  rewrite Hm. simpl. rewrite Hb, H952, Hlogin, H401. simpl.
  now rewrite <- app_assoc.
Qed.

Lemma auto_relogin_plain_fault (fuel : nat)
  (server_method : M (R:=R) (H:=H) A) (w w1 : world R H) (e : string) :
  server_method w = (Raise e, w1) ->
  contains "952" e = false ->
  contains "401" e = false ->
  _auto_relogin_fm fm attempts (S fuel) server_method w = (Raise e, w1).
Proof.
  intros Hm H952 H401. rewrite ClerkProps.auto_relogin_single_turn.
  unfold _auto_relogin_fm, while_true, relogin_turn, try_except, bind, ret,
    raise.
  rewrite Hm. destruct (attempts <=? 0 + 1)%nat; [reflexivity|].
  now rewrite H952, H401.
Qed.

End Shapes.

End ClerkMore.

(** ** The rows of the batch, one outcome at a time *)

Module BatchRows.
Import PyStr Clerk Batch.

(** The two queries of a row. *)
Definition by_number (row : source_row) : query :=
  [[(PROJECT_NUMBER_FIELD, number row)]].

Definition by_id (fmp_proj_num_row : record) : query :=
  [[(IDX_FIELD_NAME, ID_Primary fmp_proj_num_row)]].

Section Rows.
Context {R : Type}.
Variable fm : fm_server R.
Variable fuel : nat.
Variable row : source_row.
Variable w : world R UpdateStatus.

(** The ways in which the lookup by primary key fails to confirm a
    match, each with the events it leaves in the trace and the server
    after it. The wrapper hands back [None] when the find raises the
    no-match fault (after a login, when the text of the fault holds 952
    as well); or the find returns a found set that is false, or one of
    more than one row. *)
Inductive unconfirmed (q : query) (r1 : R) : list event -> R -> Prop :=
| lookup_no_match (e : string) (r2 : R) :
    find fm q r1 = (Raises e, r2) ->
    contains "401" e = true ->
    contains "952" e = false ->
    unconfirmed q r1 [EvFind q; EvWarn warning_401] r2
| lookup_no_match_after_login (e : string) (r2 r3 : R) :
    find fm q r1 = (Raises e, r2) ->
    contains "401" e = true ->
    contains "952" e = true ->
    login fm r2 = (Returns tt, r3) ->
    unconfirmed q r1 [EvFind q; EvLogin; EvWarn warning_401] r3
| lookup_false (fs2 : foundset) (r2 : R) :
    find fm q r1 = (Returns fs2, r2) ->
    foundset_bool fm fs2 = false ->
    unconfirmed q r1 [EvFind q] r2
| lookup_several (fs2 : foundset) (r2 : R) :
    find fm q r1 = (Returns fs2, r2) ->
    2 <= List.length fs2 ->
    unconfirmed q r1 [EvFind q] r2.

(** A row whose project number FileMaker does not know (the find raises
    the 401 fault) is counted as not found in FileMaker: one find, the
    warning of the wrapper, the log line, and nothing else is called. *)
Theorem no_match_row_counted (e : string) (r1 : R) :
  find fm (by_number row) (remote w) = (Raises e, r1) ->
  contains "401" e = true ->
  contains "952" e = false ->
  process_row fm (S fuel) row w
  = (Return tt,
     {| remote := r1;
        trace :=
          (trace w
             ++ [EvFind (by_number row); EvWarn warning_401;
                 EvLog WARNING
                   ("Project " ++ number row ++ " not found in FileMaker.")])%list;
        heap := count_not_in_fmp (heap w) |}).
Proof.
  intros Hfind H401 H952.
  unfold process_row, try_except, projects_queried_by_number, fm_find.
  fold (by_number row). unfold bind at 1.
  rewrite (ClerkMore.auto_relogin_no_match fm auto_login_attempts fuel _ w
             _ e (ClerkProps.call_raises (EvFind (by_number row)) _ w e r1 Hfind)
             eq_refl H401 H952).
  unfold not_found_in_fmp, log, bind, emit, modify_heap. simpl.
  now rewrite <- !app_assoc.
Qed.

(** A row whose find raises any other fault changes nothing in the
    tally: the fault is caught at the row, logged as an error with the
    project number, and the turn of the row returns. *)
Theorem faulting_row_logged (e : string) (r1 : R) :
  find fm (by_number row) (remote w) = (Raises e, r1) ->
  contains "401" e = false ->
  contains "952" e = false ->
  process_row fm (S fuel) row w
  = (Return tt,
     {| remote := r1;
        trace :=
          (trace w
             ++ [EvFind (by_number row);
                 EvLog ERROR
                   ("Error processing project " ++ number row ++ ": " ++ e)])%list;
        heap := heap w |}).
Proof.
  intros Hfind H401 H952.
  unfold process_row, try_except, projects_queried_by_number, fm_find.
  fold (by_number row). unfold bind at 1.
  rewrite (ClerkMore.auto_relogin_plain_fault fm auto_login_attempts fuel _ w
             _ e (ClerkProps.call_raises (EvFind (by_number row)) _ w e r1 Hfind)
             H952 H401).
  unfold log, emit. simpl. now rewrite <- !app_assoc.
Qed.

(** A row whose find returns a true found set of no records is not
    counted: the frame of the found set has no column of project
    numbers, the subscript of line 279 raises [KeyError], and the fault
    is caught at the row and logged as an error. Nothing else is
    called. *)
Theorem empty_frame_row_logged (r1 : R) :
  find fm (by_number row) (remote w) = (Returns [], r1) ->
  foundset_bool fm [] = true ->
  process_row fm (S fuel) row w
  = (Return tt,
     {| remote := r1;
        trace :=
          (trace w
             ++ [EvFind (by_number row);
                 EvLog ERROR
                   ("Error processing project " ++ number row
                      ++ ": 'ProjectNumber'")])%list;
        heap := heap w |}).
Proof.
  intros Hfind Hbool.
  unfold process_row, try_except, projects_queried_by_number, fm_find.
  fold (by_number row). unfold bind at 1.
  rewrite (ClerkProps.auto_relogin_returns fm auto_login_attempts _ fuel w _
             ([] : foundset)
             (ClerkProps.call_returns (A:=foundset) (EvFind (by_number row)) _ w
                [] r1 Hfind)).
  rewrite Hbool. cbn [negb].
  unfold raise, log, emit. simpl. now rewrite <- !app_assoc.
Qed.

(** A row for which more than one remote project carries the key is
    counted as ambiguous: after the one find there is no lookup by
    primary key and no edit call. *)
Theorem ambiguous_row_counted (fs1 : foundset) (r1 : R)
  (m1 m2 : record) (more : list record) :
  find fm (by_number row) (remote w) = (Returns fs1, r1) ->
  foundset_bool fm fs1 = true ->
  matching_rows (number row) fs1 = m1 :: m2 :: more ->
  process_row fm (S fuel) row w
  = (Return tt,
     {| remote := r1;
        trace :=
          (trace w
             ++ [EvFind (by_number row);
                 EvLog WARNING
                   ("Multiple projects found in FileMaker for project number "
                      ++ number row ++ ".")])%list;
        heap := count_multiple_in_fmp (heap w) |}).
Proof.
  intros Hfind Hbool Hmatch.
  destruct fs1 as [|found fs1']; [discriminate Hmatch|].
  unfold process_row, try_except, projects_queried_by_number, fm_find.
  fold (by_number row). unfold bind at 1.
  rewrite (ClerkProps.auto_relogin_returns fm auto_login_attempts _ fuel w _
             ((found :: fs1') : foundset)
             (ClerkProps.call_returns (A:=foundset) (EvFind (by_number row)) _ w
                (found :: fs1') r1 Hfind)).
  rewrite Hbool. cbn [negb]. rewrite Hmatch.
  unfold log, bind, emit, modify_heap. simpl.
  now rewrite <- !app_assoc.
Qed.

(** The turn of a row up to the lookup by primary key, when the find by
    number gave exactly one matching row. *)
Lemma row_reaches_lookup (fs1 : foundset) (r1 : R) (fmp_proj_num_row : record) :
  find fm (by_number row) (remote w) = (Returns fs1, r1) ->
  foundset_bool fm fs1 = true ->
  matching_rows (number row) fs1 = [fmp_proj_num_row] ->
  process_row fm (S fuel) row w
  = try_except
      (fmp_proj_id_foundset <-
         projects_queried_by_id fm auto_login_attempts (S fuel)
           (ID_Primary fmp_proj_num_row) ;;
       if not_foundset fm fmp_proj_id_foundset
          || match fmp_proj_id_foundset with
             | Some fs' => (1 <? List.length fs')%nat
             | None => false
             end
       then
         log WARNING
           ("Project " ++ number row ++ " not found in FileMaker using ID, "
              ++ ID_Primary fmp_proj_num_row ++ ".") ;;;
         modify_heap count_id_not_found
       else
         match fmp_proj_id_foundset with
         | Some (record :: _) =>
             updated <-
               make_change_to_project_data fm auto_login_attempts (S fuel)
                 (recordId record)
                 [(PROJECT_LOCATION_FIELD,
                   PathNormalizer.db_path_to_user_path
                     (file_server_location row))] ;;
             match updated with
             | Some true => modify_heap (count_updated (number row))
             | _ => ret tt
             end
         | _ => ret tt
         end)
      (fun e =>
         log ERROR ("Error processing project " ++ number row ++ ": " ++ e))
      {| remote := r1; trace := (trace w ++ [EvFind (by_number row)])%list;
         heap := heap w |}.
Proof.
  intros Hfind Hbool Hmatch.
  destruct fs1 as [|found fs1']; [discriminate Hmatch|].
  unfold process_row, try_except, projects_queried_by_number, fm_find.
  fold (by_number row). unfold bind at 1.
  rewrite (ClerkProps.auto_relogin_returns fm auto_login_attempts _ fuel w _
             ((found :: fs1') : foundset)
             (ClerkProps.call_returns (A:=foundset) (EvFind (by_number row)) _ w
                (found :: fs1') r1 Hfind)).
  rewrite Hbool. cbn [negb]. rewrite Hmatch. reflexivity.
Qed.

(** A row whose match is not confirmed by the lookup by primary key is
    counted under the identifiers not found and logged with the
    identifier, and no edit call is made. The lookup is unconfirmed when
    the wrapper hands back [None], which it does for the no-match fault
    of the find, when the found set is false, and when it has more than
    one row. *)
Theorem unconfirmed_row_counted (fs1 : foundset) (r1 r2 : R)
  (fmp_proj_num_row : record) (lookup : list event) :
  find fm (by_number row) (remote w) = (Returns fs1, r1) ->
  foundset_bool fm fs1 = true ->
  matching_rows (number row) fs1 = [fmp_proj_num_row] ->
  unconfirmed (by_id fmp_proj_num_row) r1 lookup r2 ->
  process_row fm (S fuel) row w
  = (Return tt,
     {| remote := r2;
        trace :=
          (trace w
             ++ [EvFind (by_number row)] ++ lookup
             ++ [EvLog WARNING
                   ("Project " ++ number row
                      ++ " not found in FileMaker using ID, "
                      ++ ID_Primary fmp_proj_num_row ++ ".")])%list;
        heap := count_id_not_found (heap w) |})
  /\ BatchProps.edit_calls lookup = 0.
Proof.
  intros Hfind Hbool Hmatch Hlookup.
  rewrite (row_reaches_lookup fs1 r1 fmp_proj_num_row Hfind Hbool Hmatch).
  unfold try_except, projects_queried_by_id, fm_find.
  fold (by_id fmp_proj_num_row). unfold bind at 1.
  set (w1 := {| remote := r1; trace := (trace w ++ [EvFind (by_number row)])%list;
                heap := heap w |}).
  destruct Hlookup as [e r2 Hfind2 H401 H952 | e r2 r3 Hfind2 H401 H952 Hlogin
                      | fs2 r2 Hfind2 Hfalse | fs2 r2 Hfind2 Hlen].
  - rewrite (ClerkMore.auto_relogin_no_match fm auto_login_attempts fuel _ w1
               _ e (ClerkProps.call_raises (EvFind (by_id fmp_proj_num_row)) _
                      w1 e r2 Hfind2) eq_refl H401 H952).
    split; [|reflexivity].
    unfold log, bind, emit, modify_heap. simpl.
    now rewrite <- !app_assoc.
  - rewrite (ClerkMore.auto_relogin_no_match_after_login fm auto_login_attempts
               fuel _ w1 _ e r3
               (ClerkProps.call_raises (EvFind (by_id fmp_proj_num_row)) _
                  w1 e r2 Hfind2) eq_refl H401 H952 Hlogin).
    split; [|reflexivity].
    unfold log, bind, emit, modify_heap. simpl.
    now rewrite <- !app_assoc.
  - rewrite (ClerkProps.auto_relogin_returns fm auto_login_attempts _ fuel w1 _
               fs2 (ClerkProps.call_returns (EvFind (by_id fmp_proj_num_row)) _
                      w1 fs2 r2 Hfind2)).
    split; [|reflexivity].
    unfold not_foundset. rewrite Hfalse. cbn [negb orb].
    unfold log, bind, emit, modify_heap. simpl.
    now rewrite <- !app_assoc.
  - rewrite (ClerkProps.auto_relogin_returns fm auto_login_attempts _ fuel w1 _
               fs2 (ClerkProps.call_returns (EvFind (by_id fmp_proj_num_row)) _
                      w1 fs2 r2 Hfind2)).
    split; [|reflexivity].
    assert (Hcond : (1 <? List.length fs2)%nat = true)
      by (apply Nat.ltb_lt; lia).
    rewrite Hcond, orb_true_r.
    unfold log, bind, emit, modify_heap. simpl.
    now rewrite <- !app_assoc.
Qed.

(** A row whose edit call faults is not counted: one edit call is made,
    the fault is logged as an error, and the tally is as it was. *)
Theorem edit_fault_row_logged (fs1 : foundset) (r1 r2 r3 : R)
  (fmp_proj_num_row record : Clerk.record) (e : string) :
  find fm (by_number row) (remote w) = (Returns fs1, r1) ->
  foundset_bool fm fs1 = true ->
  matching_rows (number row) fs1 = [fmp_proj_num_row] ->
  find fm (by_id fmp_proj_num_row) r1 = (Returns [record], r2) ->
  foundset_bool fm [record] = true ->
  edit_record fm (recordId record)
    [(PROJECT_LOCATION_FIELD,
      PathNormalizer.db_path_to_user_path (file_server_location row))] r2
    = (Raises e, r3) ->
  contains "401" e = false ->
  contains "952" e = false ->
  process_row fm (S fuel) row w
  = (Return tt,
     {| remote := r3;
        trace :=
          (trace w
             ++ [EvFind (by_number row); EvFind (by_id fmp_proj_num_row);
                 EvEditRecord (recordId record)
                   [(PROJECT_LOCATION_FIELD,
                     PathNormalizer.db_path_to_user_path
                       (file_server_location row))];
                 EvLog ERROR
                   ("Error processing project " ++ number row ++ ": " ++ e)])%list;
        heap := heap w |}).
Proof.
  intros Hfind Hbool Hmatch Hfind2 Hbool2 Hedit H401 H952.
  rewrite (row_reaches_lookup fs1 r1 fmp_proj_num_row Hfind Hbool Hmatch).
  unfold try_except, projects_queried_by_id, make_change_to_project_data,
    fm_find, fm_edit_record.
  fold (by_id fmp_proj_num_row). unfold bind at 1.
  set (w1 := {| remote := r1; trace := (trace w ++ [EvFind (by_number row)])%list;
                heap := heap w |}).
  rewrite (ClerkProps.auto_relogin_returns fm auto_login_attempts _ fuel w1 _
             ([record] : foundset)
             (ClerkProps.call_returns (A:=foundset)
                (EvFind (by_id fmp_proj_num_row)) _ w1 [record] r2 Hfind2)).
  unfold not_foundset. rewrite Hbool2.
  cbn [negb orb List.length Nat.ltb Nat.leb].
  unfold bind at 1.
  match goal with
  | |- context [_auto_relogin_fm fm auto_login_attempts (S fuel)
                  (call ?ev ?op) ?w2] =>
      rewrite (ClerkMore.auto_relogin_plain_fault fm auto_login_attempts fuel
                 (call ev op) w2 _ e
                 (ClerkProps.call_raises ev op w2 e r3 Hedit) H952 H401)
  end.
  unfold log, emit. simpl. now rewrite <- !app_assoc.
Qed.

(** A row whose edit call returns a false result is passed over in
    silence: one edit call is made, nothing is counted and no line is
    logged for the row. *)
Theorem edit_refused_row_silent (fs1 : foundset) (r1 r2 r3 : R)
  (fmp_proj_num_row record : Clerk.record) :
  find fm (by_number row) (remote w) = (Returns fs1, r1) ->
  foundset_bool fm fs1 = true ->
  matching_rows (number row) fs1 = [fmp_proj_num_row] ->
  find fm (by_id fmp_proj_num_row) r1 = (Returns [record], r2) ->
  foundset_bool fm [record] = true ->
  edit_record fm (recordId record)
    [(PROJECT_LOCATION_FIELD,
      PathNormalizer.db_path_to_user_path (file_server_location row))] r2
    = (Returns false, r3) ->
  process_row fm (S fuel) row w
  = (Return tt,
     {| remote := r3;
        trace :=
          (trace w
             ++ [EvFind (by_number row); EvFind (by_id fmp_proj_num_row);
                 EvEditRecord (recordId record)
                   [(PROJECT_LOCATION_FIELD,
                     PathNormalizer.db_path_to_user_path
                       (file_server_location row))]])%list;
        heap := heap w |}).
Proof.
  intros Hfind Hbool Hmatch Hfind2 Hbool2 Hedit.
  rewrite (row_reaches_lookup fs1 r1 fmp_proj_num_row Hfind Hbool Hmatch).
  unfold try_except, projects_queried_by_id, make_change_to_project_data,
    fm_find, fm_edit_record.
  fold (by_id fmp_proj_num_row). unfold bind at 1.
  set (w1 := {| remote := r1; trace := (trace w ++ [EvFind (by_number row)])%list;
                heap := heap w |}).
  rewrite (ClerkProps.auto_relogin_returns fm auto_login_attempts _ fuel w1 _
             ([record] : foundset)
             (ClerkProps.call_returns (A:=foundset)
                (EvFind (by_id fmp_proj_num_row)) _ w1 [record] r2 Hfind2)).
  unfold not_foundset. rewrite Hbool2.
  cbn [negb orb List.length Nat.ltb Nat.leb].
  unfold bind at 1.
  match goal with
  | |- context [_auto_relogin_fm fm auto_login_attempts (S fuel)
                  (call ?ev ?op) ?w2] =>
      rewrite (ClerkProps.auto_relogin_returns fm auto_login_attempts
                 (call ev op) fuel w2 _ false
                 (ClerkProps.call_returns ev op w2 false r3 Hedit))
  end.
  unfold ret. simpl. now rewrite <- !app_assoc.
Qed.

End Rows.

(** The theorems above at work on a scripted server. *)

Definition spaced_twin : record := {|
  recordId := "9";
  ID_Primary := "5151";
  ProjectNumber := " 1234 ";
  ProjectName := "Site A, phase 2";
  Notes := "";
  ID_ProjectManager := ""
|}.

Definition trimmed_twin : record := {|
  recordId := "9";
  ID_Primary := "5151";
  ProjectNumber := "1234";
  ProjectName := "Site A, phase 2";
  Notes := "";
  ID_ProjectManager := ""
|}.

Definition site_a_location : string := "N:\PPDO\Records\/archives/2024/site-a".

Lemma no_match_row_counted_witness :
  process_row scripted 1 BatchProps.site_a_row
    (initial_world [ReplyFault ClerkProps.no_match_fault])
  = (Return tt,
     {| remote := [];
        trace :=
          [EvFind (by_number BatchProps.site_a_row); EvWarn warning_401;
           EvLog WARNING "Project 1234 not found in FileMaker."];
        heap := count_not_in_fmp UpdateStatus_init |}).
Proof.
  apply (no_match_row_counted scripted 0 BatchProps.site_a_row
           (initial_world [ReplyFault ClerkProps.no_match_fault])
           ClerkProps.no_match_fault []);
    reflexivity.
Defined.

Lemma faulting_row_logged_witness :
  process_row scripted 1 BatchProps.site_a_row
    (initial_world [ReplyFault ClerkProps.other_fault])
  = (Return tt,
     {| remote := [];
        trace :=
          [EvFind (by_number BatchProps.site_a_row);
           EvLog ERROR
             ("Error processing project 1234: " ++ ClerkProps.other_fault)];
        heap := UpdateStatus_init |}).
Proof.
  apply (faulting_row_logged scripted 0 BatchProps.site_a_row
           (initial_world [ReplyFault ClerkProps.other_fault])
           ClerkProps.other_fault []);
    reflexivity.
Defined.

Lemma empty_frame_row_logged_witness :
  process_row scripted 1 BatchProps.site_a_row (initial_world [ReplyFound []])
  = (Return tt,
     {| remote := [];
        trace :=
          [EvFind (by_number BatchProps.site_a_row);
           EvLog ERROR "Error processing project 1234: 'ProjectNumber'"];
        heap := UpdateStatus_init |}).
Proof.
  apply (empty_frame_row_logged scripted 0 BatchProps.site_a_row
           (initial_world [ReplyFound []]) []);
    reflexivity.
Defined.

Lemma ambiguous_row_counted_witness :
  process_row scripted 1 BatchProps.site_a_row
    (initial_world [ReplyFound [ClerkProps.a_project; spaced_twin]])
  = (Return tt,
     {| remote := [];
        trace :=
          [EvFind (by_number BatchProps.site_a_row);
           EvLog WARNING
             "Multiple projects found in FileMaker for project number 1234."];
        heap := count_multiple_in_fmp UpdateStatus_init |}).
Proof.
  apply (ambiguous_row_counted scripted 0 BatchProps.site_a_row
           (initial_world [ReplyFound [ClerkProps.a_project; spaced_twin]])
           [ClerkProps.a_project; spaced_twin] []
           ClerkProps.a_project trimmed_twin []);
    reflexivity.
Defined.

Lemma unconfirmed_row_counted_witness :
  (process_row scripted 1 BatchProps.site_a_row
     (initial_world
        [ReplyFound [ClerkProps.a_project];
         ReplyFault ClerkProps.no_match_fault])
   = (Return tt,
      {| remote := [];
         trace :=
           [EvFind (by_number BatchProps.site_a_row);
            EvFind (by_id ClerkProps.a_project);
            EvWarn warning_401;
            EvLog WARNING
              "Project 1234 not found in FileMaker using ID, 4242."];
         heap := count_id_not_found UpdateStatus_init |})
   /\ BatchProps.edit_calls
        [EvFind (by_id ClerkProps.a_project); EvWarn warning_401] = 0)
  /\ (process_row scripted 1 BatchProps.site_a_row
        (initial_world
           [ReplyFound [ClerkProps.a_project];
            ReplyFound [ClerkProps.a_project; trimmed_twin]])
      = (Return tt,
         {| remote := [];
            trace :=
              [EvFind (by_number BatchProps.site_a_row);
               EvFind (by_id ClerkProps.a_project);
               EvLog WARNING
                 "Project 1234 not found in FileMaker using ID, 4242."];
            heap := count_id_not_found UpdateStatus_init |})
      /\ BatchProps.edit_calls [EvFind (by_id ClerkProps.a_project)] = 0).
Proof.
  split.
  - apply (unconfirmed_row_counted scripted 0 BatchProps.site_a_row
             (initial_world
                [ReplyFound [ClerkProps.a_project];
                 ReplyFault ClerkProps.no_match_fault])
             [ClerkProps.a_project]
             [ReplyFault ClerkProps.no_match_fault] []
             ClerkProps.a_project
             [EvFind (by_id ClerkProps.a_project); EvWarn warning_401]);
      try reflexivity.
    apply (lookup_no_match scripted (by_id ClerkProps.a_project)
             [ReplyFault ClerkProps.no_match_fault]
             ClerkProps.no_match_fault []);
      reflexivity.
  - apply (unconfirmed_row_counted scripted 0 BatchProps.site_a_row
             (initial_world
                [ReplyFound [ClerkProps.a_project];
                 ReplyFound [ClerkProps.a_project; trimmed_twin]])
             [ClerkProps.a_project]
             [ReplyFound [ClerkProps.a_project; trimmed_twin]] []
             ClerkProps.a_project
             [EvFind (by_id ClerkProps.a_project)]);
      try reflexivity.
    apply (lookup_several scripted (by_id ClerkProps.a_project)
             [ReplyFound [ClerkProps.a_project; trimmed_twin]]
             [ClerkProps.a_project; trimmed_twin] []);
      [reflexivity | simpl; lia].
Defined.

Lemma edit_fault_row_logged_witness :
  process_row scripted 1 BatchProps.site_a_row BatchProps.edit_fails
  = (Return tt,
     {| remote := [];
        trace :=
          [EvFind (by_number BatchProps.site_a_row);
           EvFind (by_id ClerkProps.a_project);
           EvEditRecord "7" [(PROJECT_LOCATION_FIELD, site_a_location)];
           EvLog ERROR
             ("Error processing project 1234: " ++ ClerkProps.other_fault)];
        heap := UpdateStatus_init |}).
Proof.
  apply (edit_fault_row_logged scripted 0 BatchProps.site_a_row
           BatchProps.edit_fails [ClerkProps.a_project]
           [ReplyFound [ClerkProps.a_project];
            ReplyFault ClerkProps.other_fault]
           [ReplyFault ClerkProps.other_fault] []
           ClerkProps.a_project ClerkProps.a_project ClerkProps.other_fault);
    reflexivity.
Defined.

Lemma edit_refused_row_silent_witness :
  process_row scripted 1 BatchProps.site_a_row
    (initial_world
       [ReplyFound [ClerkProps.a_project]; ReplyFound [ClerkProps.a_project];
        ReplyBool false])
  = (Return tt,
     {| remote := [];
        trace :=
          [EvFind (by_number BatchProps.site_a_row);
           EvFind (by_id ClerkProps.a_project);
           EvEditRecord "7" [(PROJECT_LOCATION_FIELD, site_a_location)]];
        heap := UpdateStatus_init |}).
Proof.
  apply (edit_refused_row_silent scripted 0 BatchProps.site_a_row
           (initial_world
              [ReplyFound [ClerkProps.a_project];
               ReplyFound [ClerkProps.a_project]; ReplyBool false])
           [ClerkProps.a_project]
           [ReplyFound [ClerkProps.a_project]; ReplyBool false]
           [ReplyBool false] []
           ClerkProps.a_project ClerkProps.a_project);
    reflexivity.
Defined.

End BatchRows.

(** ** The whole run of the batch *)

Module BatchRun.
Import PyStr Clerk Batch.
Import BatchProps.

(** The rows that the tally has counted, under any heading. *)
Definition counted (s : UpdateStatus) : nat :=
  project_locations_updated s + projects_not_in_fmp s
  + multiple_projects_in_fmp s + ids_not_found_in_fmp s.

(** [l] is [m] with some of its elements left out, the order kept. *)
Inductive subseq {A : Type} : list A -> list A -> Prop :=
| subseq_nil : subseq [] []
| subseq_skip (x : A) (l m : list A) : subseq l m -> subseq l (x :: m)
| subseq_take (x : A) (l m : list A) : subseq l m -> subseq (x :: l) (x :: m).

Definition is_edit (ev : event) : bool :=
  match ev with EvEditRecord _ _ => true | _ => false end.

Lemma edit_calls_snoc (t : list event) (ev : event) :
  edit_calls (t ++ [ev]) = edit_calls t + (if is_edit ev then 1 else 0).
Proof.
  unfold edit_calls. rewrite filter_app, length_app. simpl.
  destruct ev; simpl; lia.
Qed.

Section Run.
Context {R : Type}.
Variable fm : fm_server R.
Variable fuel : nat.

(** The effect of one invocation of the wrapper on a server call. *)
Lemma wrapper_call_effect {A : Type} (attempts : nat) (ev : event)
  (op : R -> outcome A * R) (w : world R UpdateStatus) :
  heap (snd (_auto_relogin_fm fm attempts (S fuel) (call ev op) w)) = heap w
  /\ edit_calls
       (trace (snd (_auto_relogin_fm fm attempts (S fuel) (call ev op) w)))
     = edit_calls (trace w) + (if is_edit ev then 1 else 0).
Proof.
  rewrite ClerkProps.auto_relogin_single_turn.
  unfold _auto_relogin_fm, while_true, relogin_turn, try_except, bind, ret,
    raise, emit, fm_login, call.
  destruct (op (remote w)) as [[a|e] r1]; cbn [fst snd trace heap remote].
  - split; [reflexivity | apply edit_calls_snoc].
  - destruct (attempts <=? 0 + 1)%nat; cbn [fst snd trace heap remote].
    { split; [reflexivity | apply edit_calls_snoc]. }
    destruct (contains "952" e); cbn [fst snd trace heap remote].
    + destruct (login fm r1) as [[[]|e'] r2]; cbn [fst snd trace heap remote].
      * destruct (contains "401" e); cbn [fst snd trace heap remote];
          (split; [reflexivity|]); rewrite !edit_calls_snoc; simpl; lia.
      * split; [reflexivity|]. rewrite !edit_calls_snoc; simpl; lia.
    + destruct (contains "401" e); cbn [fst snd trace heap remote];
        (split; [reflexivity|]); rewrite !edit_calls_snoc; simpl; lia.
Qed.

(** Relations between the world before and the world after. *)
Definition change : Type :=
  world R UpdateStatus -> world R UpdateStatus -> Prop.

Definition eff {A : Type} (Q : change)
  (m : Clerk.M (R:=R) (H:=UpdateStatus) A) : Prop :=
  forall w, Q w (snd (m w)).

(** Nothing counted, no edit call. *)
Definition same : change :=
  fun w w' =>
    heap w' = heap w /\ edit_calls (trace w') = edit_calls (trace w).

(** Nothing counted, one edit call. *)
Definition edited : change :=
  fun w w' =>
    heap w' = heap w /\ edit_calls (trace w') = edit_calls (trace w) + 1.

(** The tally changed by [f], no edit call. *)
Definition tallied (f : UpdateStatus -> UpdateStatus) : change :=
  fun w w' =>
    heap w' = f (heap w) /\ edit_calls (trace w') = edit_calls (trace w).

(** What a row may do to the tally and to the count of edit calls. *)
Definition row_effect (row : source_row) : change :=
  fun w w' =>
    ((heap w' = heap w
      \/ heap w' = count_not_in_fmp (heap w)
      \/ heap w' = count_multiple_in_fmp (heap w)
      \/ heap w' = count_id_not_found (heap w))
     /\ edit_calls (trace w) <= edit_calls (trace w')
        <= edit_calls (trace w) + 1)
    \/ (heap w' = count_updated (number row) (heap w)
        /\ edit_calls (trace w') = edit_calls (trace w) + 1).

Lemma eff_weaken {A} (Q1 Q : change) (m : Clerk.M A) :
  eff Q1 m -> (forall w w', Q1 w w' -> Q w w') -> eff Q m.
Proof. intros Hm Hq w. apply Hq, Hm. Qed.

Lemma eff_ret {A} (a : A) : eff same (ret a).
Proof. intros w. split; reflexivity. Qed.

Lemma eff_log (level : log_level) (msg : string) : eff same (log level msg).
Proof.
  intros w. unfold log, emit, same. cbn [fst snd trace heap remote].
  rewrite edit_calls_snoc. simpl. split; [reflexivity | lia].
Qed.

Lemma eff_modify (f : UpdateStatus -> UpdateStatus) :
  eff (tallied f) (modify_heap f).
Proof. intros w. split; reflexivity. Qed.

Lemma eff_bind {A B} (Q1 Q2 Q : change) (m : Clerk.M A) (k : A -> Clerk.M B) :
  eff Q1 m -> (forall a, eff Q2 (k a)) ->
  (forall w w1, Q1 w w1 -> Q w w1) ->
  (forall w w1 w2, Q1 w w1 -> Q2 w1 w2 -> Q w w2) ->
  eff Q (bind m k).
Proof.
  intros Hm Hk Hstop Hgo w. unfold bind. specialize (Hm w).
  destruct (m w) as [[a|e|] w1]; simpl in *; [|now apply Hstop ..].
  eapply Hgo; [exact Hm | apply Hk].
Qed.

Lemma eff_try {A} (Q1 Q2 Q : change) (m : Clerk.M A) (h : string -> Clerk.M A) :
  eff Q1 m -> (forall e, eff Q2 (h e)) ->
  (forall w w1, Q1 w w1 -> Q w w1) ->
  (forall w w1 w2, Q1 w w1 -> Q2 w1 w2 -> Q w w2) ->
  eff Q (try_except m h).
Proof.
  intros Hm Hh Hstop Hgo w. unfold try_except. specialize (Hm w).
  destruct (m w) as [[a|e|] w1]; simpl in *; [now apply Hstop| |now apply Hstop].
  eapply Hgo; [exact Hm | apply Hh].
Qed.

Lemma eff_find {A : Type} (q : query) (op : R -> outcome A * R) :
  eff same (_auto_relogin_fm fm auto_login_attempts (S fuel) (call (EvFind q) op)).
Proof.
  intros w.
  destruct (wrapper_call_effect auto_login_attempts (EvFind q) op w) as [Hh He].
  split; [exact Hh|]. rewrite He. simpl. lia.
Qed.

Lemma eff_edit (record_id : string) (changes : field_data) :
  eff edited
    (make_change_to_project_data fm auto_login_attempts (S fuel) record_id
       changes).
Proof.
  intros w. unfold make_change_to_project_data, fm_edit_record.
  destruct (wrapper_call_effect auto_login_attempts
              (EvEditRecord record_id changes)
              (edit_record fm record_id changes) w) as [Hh He].
  split; [exact Hh | exact He].
Qed.

Lemma eff_log_then_count (row : source_row) (level : log_level) (msg : string)
  (f : UpdateStatus -> UpdateStatus) :
  f = count_not_in_fmp \/ f = count_multiple_in_fmp \/ f = count_id_not_found ->
  eff (row_effect row) (log level msg ;;; modify_heap f).
Proof.
  intros Hf.
  apply (eff_bind same (tallied f)); [apply eff_log | intros; apply eff_modify | |].
  - intros w w1 [Hh He]. left. rewrite Hh, He. split; [auto | lia].
  - intros w w1 w2 [Hh1 He1] [Hh2 He2]. left.
    rewrite Hh2, He2, Hh1, He1. split; [|lia].
    destruct Hf as [-> | [-> | ->]]; auto.
Qed.

Lemma same_then_row (row : source_row) (w w1 w2 : world R UpdateStatus) :
  same w w1 -> row_effect row w1 w2 -> row_effect row w w2.
Proof.
  intros [Hh He]. unfold row_effect. now rewrite Hh, He.
Qed.

Lemma same_is_row (row : source_row) (w w1 : world R UpdateStatus) :
  same w w1 -> row_effect row w w1.
Proof.
  intros [Hh He]. left. rewrite Hh, He. split; [auto | lia].
Qed.

Lemma row_then_same (row : source_row) (w w1 w2 : world R UpdateStatus) :
  row_effect row w w1 -> same w1 w2 -> row_effect row w w2.
Proof.
  intros Hrow [Hh He]. unfold row_effect. now rewrite Hh, He.
Qed.

Lemma process_row_effect (row : source_row) :
  eff (row_effect row) (process_row fm (S fuel) row).
Proof.
  unfold process_row.
  apply (eff_try (row_effect row) same);
    [|intros; apply eff_log | auto | apply row_then_same].
  apply (eff_bind same (row_effect row));
    [apply eff_find | | apply same_is_row | apply same_then_row].
  intros [fs|]; [|apply eff_log_then_count; auto].
  destruct (negb (foundset_bool fm fs)); [apply eff_log_then_count; auto|].
  destruct fs as [|found fs'];
    [apply (eff_weaken same); [intros w; split; reflexivity | apply same_is_row]|].
  destruct (matching_rows (number row) (found :: fs')) as [|r1 [|r2 rest]].
  - apply eff_log_then_count; auto.
  - apply (eff_bind same (row_effect row));
      [apply eff_find | | apply same_is_row | apply same_then_row].
    intros fs2.
    match goal with |- eff _ (if ?b then _ else _) => destruct b end;
      [apply eff_log_then_count; auto|].
    destruct fs2 as [[|record fs2]|];
      try (apply (eff_weaken same); [apply eff_ret | apply same_is_row]).
    apply (eff_bind edited
             (fun w w' =>
                (heap w' = heap w
                 \/ heap w' = count_updated (number row) (heap w))
                /\ edit_calls (trace w') = edit_calls (trace w)));
      [apply eff_edit | | |].
    + intros [[|]|]; intros w.
      * destruct (eff_modify (count_updated (number row)) w) as [Hh He].
        split; [right; exact Hh | exact He].
      * destruct (eff_ret (A:=unit) tt w) as [Hh He]. split; [left; exact Hh | exact He].
      * destruct (eff_ret (A:=unit) tt w) as [Hh He]. split; [left; exact Hh | exact He].
    + intros w w1 [Hh He]. left. rewrite Hh, He. split; [auto | lia].
    + intros w w1 w2 [Hh1 He1] [[Hh2|Hh2] He2].
      * left. rewrite Hh2, He2, Hh1, He1. split; [auto | lia].
      * right. rewrite Hh2, He2, Hh1, He1. split; reflexivity.
  - apply eff_log_then_count; auto.
Qed.

Lemma for_rows_step (row : source_row) (rest : list source_row)
  (w : world R UpdateStatus) :
  snd (for_rows fm (S fuel) (row :: rest) w)
  = snd (for_rows fm (S fuel) rest (snd (process_row fm (S fuel) row w))).
Proof.
  simpl. unfold bind.
  pose proof (process_row_returns fm fuel row w) as Hret.
  destruct (process_row fm (S fuel) row w) as [res w1]. simpl in *.
  now subst res.
Qed.

(** What a run of the loop does to the tally and to the edit calls, from
    any state. *)
Lemma for_rows_effect (rows : list source_row) (w : world R UpdateStatus) :
  exists added,
    subseq added (map number rows)
    /\ projects_modified (heap (snd (for_rows fm (S fuel) rows w)))
       = (projects_modified (heap w) ++ added)%list
    /\ project_locations_updated (heap (snd (for_rows fm (S fuel) rows w)))
       = project_locations_updated (heap w) + List.length added
    /\ counted (heap (snd (for_rows fm (S fuel) rows w)))
       <= counted (heap w) + List.length rows
    /\ edit_calls (trace (snd (for_rows fm (S fuel) rows w)))
       <= edit_calls (trace w) + List.length rows
    /\ edit_calls (trace w) + List.length added
       <= edit_calls (trace (snd (for_rows fm (S fuel) rows w))).
Proof.
  revert w; induction rows as [|row rest IH]; intros w.
  - exists []. simpl. rewrite app_nil_r. repeat split; try lia. constructor.
  - rewrite for_rows_step.
    pose proof (process_row_effect row w) as Hrow.
    set (w1 := snd (process_row fm (S fuel) row w)) in *.
    destruct (IH w1) as (added & Hsub & Hmod & Hupd & Hcnt & Hed & Hed').
    destruct Hrow as [[Hheap Hedits] | [Hheap Hedits]].
    + exists added. simpl map. simpl List.length.
      split; [now constructor|].
      assert (Hm : projects_modified (heap w1) = projects_modified (heap w)
                   /\ project_locations_updated (heap w1)
                      = project_locations_updated (heap w)
                   /\ counted (heap w1) <= counted (heap w) + 1).
      { destruct Hheap as [-> | [-> | [-> | ->]]]; unfold counted; simpl;
          repeat split; lia. }
      destruct Hm as (Hm1 & Hm2 & Hm3).
      rewrite Hmod, Hupd, Hm1, Hm2. repeat split; lia.
    + exists (number row :: added). simpl map. simpl List.length.
      split; [now constructor|].
      assert (Hm : projects_modified (heap w1)
                   = (projects_modified (heap w) ++ [number row])%list
                   /\ project_locations_updated (heap w1)
                      = project_locations_updated (heap w) + 1
                   /\ counted (heap w1) = counted (heap w) + 1).
      { rewrite Hheap. unfold counted. simpl. repeat split; lia. }
      destruct Hm as (Hm1 & Hm2 & Hm3).
      rewrite Hmod, Hupd, Hm1, Hm2, <- app_assoc. simpl.
      repeat split; lia.
Qed.

(** Over a whole run that starts with a fresh tally, whatever the server
    does: every row is counted at most once, at most one edit call is
    made per row, and a location is counted as updated only for an edit
    call that was made. *)
Theorem run_counts_are_bounded (rows : list source_row) (r : R) :
  counted (heap (snd (for_rows fm (S fuel) rows (initial_world r))))
    <= List.length rows
  /\ edit_calls (trace (snd (for_rows fm (S fuel) rows (initial_world r))))
     <= List.length rows
  /\ project_locations_updated
       (heap (snd (for_rows fm (S fuel) rows (initial_world r))))
     <= edit_calls (trace (snd (for_rows fm (S fuel) rows (initial_world r)))).
Proof.
  destruct (for_rows_effect rows (initial_world r))
    as (added & Hsub & Hmod & Hupd & Hcnt & Hed & Hed').
  change (edit_calls (trace (initial_world r))) with 0 in *.
  change (counted (heap (initial_world r))) with 0 in *.
  change (project_locations_updated (heap (initial_world r))) with 0 in *.
  repeat split; lia.
Qed.

(** Over a whole run that starts with a fresh tally: the list of
    modified projects holds source keys only, in the order of the rows
    and at most once per row, and the count of updated locations is the
    length of that list. *)
Theorem modified_projects_follow_rows (rows : list source_row) (r : R) :
  subseq
    (projects_modified
       (heap (snd (for_rows fm (S fuel) rows (initial_world r)))))
    (map number rows)
  /\ project_locations_updated
       (heap (snd (for_rows fm (S fuel) rows (initial_world r))))
     = List.length
         (projects_modified
            (heap (snd (for_rows fm (S fuel) rows (initial_world r))))).
Proof.
  destruct (for_rows_effect rows (initial_world r))
    as (added & Hsub & Hmod & Hupd & _).
  simpl in Hmod, Hupd. rewrite Hmod, Hupd. now split.
Qed.

End Run.

End BatchRun.

(** ** The splitters and the join, on every path *)

Module PathMore.
Import PyStr PathNormalizer.

(** [c in s] for a character. *)
Definition has (c : ascii) (s : string) : bool := contains (String c "") s.

(** [s[-1] == c], false on the empty string. *)
Fixpoint last_is (c : ascii) (s : string) : bool :=
  match s with
  | "" => false
  | String a "" => Ascii.eqb a c
  | String _ t => last_is c t
  end.

Fixpoint all_are (c : ascii) (s : string) : bool :=
  match s with
  | "" => true
  | String a t => Ascii.eqb a c && all_are c t
  end.

(** [s.replace(c, "")] for a character. *)
Fixpoint without (c : ascii) (s : string) : string :=
  match s with
  | "" => ""
  | String a t => if Ascii.eqb a c then without c t else String a (without c t)
  end.

(** One turn of the loop of [posixpath.join]. *)
Definition join_step (path b : string) : string :=
  if startswith PosixPath.sep b then b
  else if negb (truthy path) || endswith PosixPath.sep path then path ++ b
  else path ++ PosixPath.sep ++ b.

Lemma join_is_fold (a : string) (p : list string) :
  PosixPath.join a p = fold_left join_step p a.
Proof. reflexivity. Qed.

Lemma has_cons (c a : ascii) (s : string) :
  has c (String a s) = Ascii.eqb a c || has c s.
Proof.
  unfold has. simpl. destruct (ascii_dec c a) as [->|Hne].
  - rewrite Ascii.eqb_refl. now destruct s.
  - destruct (Ascii.eqb a c) eqn:E; [|reflexivity].
    apply Ascii.eqb_eq in E. congruence.
Qed.

Lemma has_app (c : ascii) (s t : string) :
  has c (s ++ t) = has c s || has c t.
Proof.
  induction s as [|a s IH].
  - simpl. unfold has at 2. simpl. reflexivity.
  - change (String a s ++ t) with (String a (s ++ t)).
    rewrite !has_cons, IH. apply orb_assoc.
Qed.

Lemma has_nil (c : ascii) : has c "" = false.
Proof. reflexivity. Qed.

Lemma startswith_char (c a : ascii) (s : string) :
  startswith (String c "") (String a s) = Ascii.eqb a c.
Proof.
  unfold startswith. simpl. destruct (ascii_dec c a) as [->|Hne].
  - rewrite Ascii.eqb_refl. now destruct s.
  - destruct (Ascii.eqb a c) eqn:E; [|reflexivity].
    apply Ascii.eqb_eq in E. congruence.
Qed.

Lemma no_char_no_start (c : ascii) (s : string) :
  has c s = false -> startswith (String c "") s = false.
Proof.
  destruct s as [|a s]; [reflexivity|].
  rewrite has_cons, startswith_char. intros H.
  now apply orb_false_iff in H.
Qed.

Lemma rfind_decomp (c : ascii) (p : string) :
  (rfind c p = (-1)%Z /\ has c p = false)
  \/ (exists pre t,
        p = pre ++ String c t /\ has c t = false
        /\ rfind c p = Z.of_nat (String.length pre)).
Proof.
  induction p as [|a p IH]; [now left|].
  simpl rfind. destruct IH as [[Hr Hn] | (pre & t & -> & Hn & Hr)].
  - rewrite Hr. simpl. destruct (Ascii.eqb a c) eqn:E.
    + right. apply Ascii.eqb_eq in E. subst a.
      exists "", p. now repeat split.
    + left. split; [reflexivity|]. now rewrite has_cons, E, Hn.
  - right. rewrite Hr.
    destruct (0 <=? Z.of_nat (String.length pre))%Z eqn:E;
      [|apply Z.leb_gt in E; lia].
    exists (String a pre), t. repeat split; [assumption|].
    simpl String.length. lia.
Qed.

Lemma take_app_char (pre : string) (c : ascii) (t : string) :
  take (String.length pre + 1) (pre ++ String c t) = pre ++ String c "".
Proof. induction pre as [|a pre IH]; simpl; [reflexivity | now rewrite IH]. Qed.

Lemma drop_app_char (pre : string) (c : ascii) (t : string) :
  drop (String.length pre + 1) (pre ++ String c t) = t.
Proof. induction pre as [|a pre IH]; simpl; [reflexivity | exact IH]. Qed.

Lemma eqb_mul_all (c : ascii) (s : string) :
  (s =? mul (String c "") (String.length s)) = all_are c s.
Proof.
  induction s as [|a s IH]; [reflexivity|].
  simpl. now rewrite IH.
Qed.

Lemma all_are_app_char (c : ascii) (s : string) :
  all_are c (s ++ String c "") = all_are c s.
Proof.
  induction s as [|a s IH]; simpl.
  - now rewrite Ascii.eqb_refl.
  - now rewrite IH.
Qed.

Lemma all_are_last (c : ascii) (s : string) :
  s <> "" -> all_are c s = true -> last_is c s = true.
Proof.
  induction s as [|a s IH]; [congruence|].
  intros _ H. simpl in H. apply andb_prop in H as [Ha Hs].
  destruct s as [|b s]; [exact Ha|].
  change (last_is c (String a (String b s))) with (last_is c (String b s)).
  apply IH; [discriminate | exact Hs].
Qed.

Lemma last_is_app (c : ascii) (s t : string) :
  t <> "" -> last_is c (s ++ t) = last_is c t.
Proof.
  intros Ht. induction s as [|a s IH]; [reflexivity|].
  simpl. destruct (s ++ t) eqn:E.
  - destruct s; simpl in E; [congruence | discriminate].
  - exact IH.
Qed.

Lemma rstrip_cons (chars : ascii -> bool) (a : ascii) (t : string) :
  rstrip chars (String a t)
  = match rstrip chars t with
    | "" => if chars a then "" else String a ""
    | String b r => String a (String b r)
    end.
Proof. reflexivity. Qed.

Lemma rstrip_app_char (c : ascii) (s : string) :
  s <> "" -> last_is c s = false ->
  rstrip (Ascii.eqb c) (s ++ String c "") = s.
Proof.
  induction s as [|a s IH]; [congruence|].
  intros _ Hl. destruct s as [|b s].
  - simpl in *. rewrite Ascii.eqb_refl.
    rewrite Ascii.eqb_sym, Hl. reflexivity.
  - change (last_is c (String a (String b s))) with (last_is c (String b s))
      in Hl.
    change (String a (String b s) ++ String c "")
      with (String a (String b s ++ String c "")).
    rewrite rstrip_cons, IH by (discriminate || assumption).
    reflexivity.
Qed.

Lemma endswith_last (c : ascii) (s : string) :
  endswith (String c "") s = last_is c s.
Proof.
  unfold endswith. induction s as [|a s IH]; [reflexivity|].
  destruct s as [|b s].
  - simpl. destruct (Ascii.eqb a c); reflexivity.
  - change (last_is c (String a (String b s))) with (last_is c (String b s)).
    rewrite <- IH. simpl String.length.
    replace (S (S (String.length s)) - 1) with (S (String.length s)) by lia.
    replace (S (String.length s) - 1) with (String.length s) by lia.
    reflexivity.
Qed.

Lemma rfind_none (c : ascii) (s : string) :
  has c s = false -> rfind c s = (-1)%Z.
Proof.
  intros Hn. destruct (rfind_decomp c s) as [[Hr _] | (pre & t & -> & _ & _)];
    [exact Hr|].
  rewrite has_app, has_cons, Ascii.eqb_refl in Hn.
  rewrite orb_true_r in Hn. discriminate.
Qed.

(** The head that [posixpath.split] makes of what stands before the
    last slash. *)
Definition head_of (pre : string) : string :=
  let h := pre ++ "/" in
  if truthy h && negb (all_are "/" h) then rstrip (Ascii.eqb "/"%char) h else h.

Lemma split_cases (p : string) :
  (has "/" p = false /\ PosixPath.split p = ("", p))
  \/ (exists pre t,
        p = pre ++ String "/" t /\ has "/" t = false
        /\ PosixPath.split p = (head_of pre, t)).
Proof.
  destruct (rfind_decomp "/" p) as [[Hr Hn] | (pre & t & -> & Hn & Hr)].
  - left. split; [exact Hn|]. unfold PosixPath.split. rewrite Hr. reflexivity.
  - right. exists pre, t. repeat split; [exact Hn|].
    unfold PosixPath.split. rewrite Hr.
    replace (Z.to_nat (Z.of_nat (String.length pre) + 1))
      with (String.length pre + 1) by lia.
    rewrite take_app_char, drop_app_char.
    unfold head_of, PosixPath.sep. cbv zeta.
    now rewrite eqb_mul_all.
Qed.

Lemma app_not_empty (s : string) (c : ascii) (t : string) :
  s ++ String c t <> "".
Proof. destruct s; discriminate. Qed.

Lemma head_of_root : head_of "" = "/".
Proof. reflexivity. Qed.

Lemma head_of_plain (pre : string) :
  pre <> "" -> last_is "/" pre = false -> head_of pre = pre.
Proof.
  intros Hne Hl. unfold head_of. cbv zeta.
  assert (Ht : truthy (pre ++ "/") = true).
  { unfold truthy. destruct pre; [congruence | reflexivity]. }
  assert (Ha : all_are "/" (pre ++ "/") = false).
  { rewrite all_are_app_char. destruct (all_are "/" pre) eqn:E; [|reflexivity].
    rewrite (all_are_last "/" pre Hne E) in Hl. discriminate. }
  rewrite Ht, Ha. simpl. now apply rstrip_app_char.
Qed.

Lemma contains_cons (n : string) (a : ascii) (s : string) :
  contains n (String a s) = String.prefix n (String a s) || contains n s.
Proof. reflexivity. Qed.

Lemma prefix_app_l (n s t : string) :
  String.prefix n s = true -> String.prefix n (s ++ t) = true.
Proof.
  revert s; induction n as [|a n IH]; intros s H.
  - now destruct (s ++ t).
  - destruct s as [|b s]; [discriminate|]. simpl in *.
    destruct (ascii_dec a b); [now apply IH | discriminate].
Qed.

Lemma contains_app_l (n s t : string) :
  contains n s = true -> contains n (s ++ t) = true.
Proof.
  induction s as [|a s IH]; intros H.
  - simpl in H. rewrite orb_false_r in H.
    apply StrProps.contains_of_prefix.
    now apply (prefix_app_l n "" t).
  - simpl in H. apply orb_prop in H as [H|H].
    + apply StrProps.contains_of_prefix. now apply prefix_app_l.
    + change (String a s ++ t) with (String a (s ++ t)).
      rewrite contains_cons, (IH H). apply orb_true_r.
Qed.

Lemma dslash_of_last (pre t : string) :
  last_is "/" pre = true -> contains "//" (pre ++ String "/" t) = true.
Proof.
  induction pre as [|a pre IH]; [discriminate|].
  destruct pre as [|b pre].
  - simpl last_is. intros Ha. apply Ascii.eqb_eq in Ha. subst a.
    exact (StrProps.contains_here "//" t).
  - intros Hl.
    change (last_is "/" (String a (String b pre)))
      with (last_is "/" (String b pre)) in Hl.
    change (String a (String b pre) ++ String "/" t)
      with (String a (String b pre ++ String "/" t)).
    rewrite contains_cons, (IH Hl). apply orb_true_r.
Qed.

(** With no two slashes in a row, a path with a slash splits at its
    last slash into what stands before it, or the root, and what stands
    after it. *)
Lemma split_no_double_slash (q : string) :
  contains "//" q = false ->
  (has "/" q = false /\ PosixPath.split q = ("", q))
  \/ (exists t, q = String "/" t /\ has "/" t = false
                /\ PosixPath.split q = ("/", t))
  \/ (exists pre t,
        q = pre ++ String "/" t /\ has "/" t = false
        /\ pre <> "" /\ last_is "/" pre = false
        /\ contains "//" pre = false
        /\ PosixPath.split q = (pre, t)).
Proof.
  intros Hd. destruct (split_cases q) as [H | (pre & t & -> & Hn & Hs)];
    [now left|].
  right. destruct pre as [|a pre].
  - left. exists t. now repeat split.
  - right. exists (String a pre), t.
    assert (Hl : last_is "/" (String a pre) = false).
    { destruct (last_is "/" (String a pre)) eqn:E; [|reflexivity].
      rewrite (dslash_of_last _ t E) in Hd. discriminate. }
    assert (Hp : contains "//" (String a pre) = false).
    { destruct (contains "//" (String a pre)) eqn:E; [|reflexivity].
      rewrite (contains_app_l "//" _ (String "/" t) E) in Hd. discriminate. }
    repeat split; try assumption; try discriminate.
    rewrite Hs. f_equal. apply head_of_plain; [discriminate | exact Hl].
Qed.

(** Where [os.path.join] stands after [q], coming from [a]. *)
Definition joined (a q : string) : string :=
  if startswith "/" q then q else join_step a q.

Lemma join_step_joined (a q : string) : join_step a q = joined a q.
Proof.
  unfold joined, join_step, PosixPath.sep. now destruct (startswith "/" q).
Qed.

Lemma join_step_after (x t : string) :
  truthy x = true -> last_is "/" x = false -> has "/" t = false ->
  join_step x t = x ++ "/" ++ t.
Proof.
  intros Hx Hl Ht. unfold join_step, PosixPath.sep.
  now rewrite (no_char_no_start _ _ Ht), Hx, endswith_last, Hl.
Qed.

Lemma truthy_app_r (x y : string) : y <> "" -> truthy (x ++ y) = true.
Proof.
  intros Hy. unfold truthy. destruct x; simpl; [|reflexivity].
  destruct y; [congruence | reflexivity].
Qed.

Lemma startswith_app_nonempty (n : ascii) (s t : string) :
  s <> "" -> startswith (String n "") (s ++ t) = startswith (String n "") s.
Proof.
  destruct s as [|a s]; [congruence|]. intros _.
  change (String a s ++ t) with (String a (s ++ t)).
  now rewrite !startswith_char.
Qed.

Lemma joined_after (a pre t : string) :
  pre <> "" -> last_is "/" pre = false -> has "/" t = false ->
  join_step (joined a pre) t = joined a (pre ++ String "/" t).
Proof.
  intros Hne Hl Ht. unfold joined.
  rewrite (startswith_app_nonempty "/" pre (String "/" t) Hne).
  destruct (startswith "/" pre) eqn:Hs.
  - apply join_step_after; try assumption.
    unfold truthy. destruct pre; [congruence | reflexivity].
  - assert (Hs' : startswith "/" (pre ++ String "/" t) = false)
      by now rewrite startswith_app_nonempty.
    unfold join_step at 2 3. unfold PosixPath.sep. rewrite Hs, Hs'.
    destruct (negb (truthy a) || endswith "/" a).
    + rewrite join_step_after; try assumption.
      * now rewrite StrProps.app_assoc.
      * now apply truthy_app_r.
      * now rewrite last_is_app.
    + rewrite join_step_after; try assumption.
      * now rewrite !StrProps.app_assoc.
      * apply truthy_app_r. destruct pre; [congruence | discriminate].
      * rewrite last_is_app; [|destruct pre; [congruence | discriminate]].
        now rewrite (last_is_app "/" "/" pre Hne).
Qed.

Lemma joined_root (a t : string) :
  has "/" t = false -> join_step (joined a "/") t = joined a (String "/" t).
Proof.
  intros Ht. unfold joined.
  rewrite (startswith_char "/" "/" t). simpl Ascii.eqb. cbv iota.
  change (startswith "/" "/") with true. cbv iota.
  unfold join_step, PosixPath.sep. now rewrite (no_char_no_start _ _ Ht).
Qed.

(** The join of the segments of the generic splitter stands where the
    join of the path itself would, when no two slashes stand in a
    row. *)
Lemma loop_join (q : string) (acc : list string) (a : string) :
  contains "//" q = false ->
  fold_left join_step (split_other_path_loop q acc) a
  = fold_left join_step acc (joined a q).
Proof.
  revert a. funelim (split_other_path_loop q acc); intros a Hd.
  - rewrite (proj1 (String.eqb_eq _ _) e). simpl.
    now rewrite join_step_joined.
  - rewrite (proj1 (String.eqb_eq _ _) Heq). simpl.
    now rewrite join_step_joined.
  - clear H0 Heqcall Hhead.
    destruct (split_no_double_slash path Hd)
      as [[_ Hs] | [(t & Hq & Ht & Hs) | (pre & t & Hq & Ht & Hne & Hl & Hp & Hs)]];
      rewrite Hs in H, Heq |- *; cbn [fst snd] in H, Heq |- *.
    + rewrite String.eqb_refl in Heq. discriminate.
    + rewrite H by reflexivity. cbn [fold_left]. f_equal.
      rewrite Hq. now apply joined_root.
    + rewrite H by assumption. cbn [fold_left]. f_equal.
      rewrite Hq. now apply joined_after.
Qed.

Lemma slash_start_not_windows (path : string) :
  startswith "/" path = true -> match_windows_pattern path = false.
Proof.
  intros Hs. destruct (match_windows_pattern path) eqn:Hw; [|reflexivity].
  destruct (PathProps.match_windows_pattern_inv path Hw)
    as (l & c & t & -> & Hl).
  rewrite startswith_char in Hs. apply Ascii.eqb_eq in Hs. subst l.
  discriminate Hl.
Qed.

Lemma generic_user_path (path : string) :
  match_windows_pattern path = false ->
  contains "//" path = false ->
  db_path_to_user_path path = joined FILE_SERVER_LOCATION path.
Proof.
  intros Hw Hd. unfold db_path_to_user_path, split_path, detect_filepath_type.
  rewrite Hw, join_is_fold.
  destruct (match_linux_pattern path); unfold split_other_path;
    now rewrite loop_join.
Qed.

(** A path of the database that starts with a slash and has no two
    slashes in a row comes back from [db_path_to_user_path] as it went
    in: the root segment makes [os.path.join] drop the mount prefix. *)
Theorem absolute_path_drops_mount (path : string) :
  startswith "/" path = true ->
  contains "//" path = false ->
  db_path_to_user_path path = path.
Proof.
  intros Hs Hd.
  rewrite (generic_user_path path (slash_start_not_windows path Hs) Hd).
  unfold joined. now rewrite Hs.
Qed.

Lemma absolute_path_drops_mount_witness :
  db_path_to_user_path "/archives/2024/site-a" = "/archives/2024/site-a".
Proof.
  apply (absolute_path_drops_mount "/archives/2024/site-a"); reflexivity.
Defined.

(** A path of the database that is not of the Windows form, does not
    start with a slash and has no two slashes in a row is put under the
    mount prefix as it is: the prefix, a slash, the path. *)
Theorem relative_path_under_mount (path : string) :
  match_windows_pattern path = false ->
  startswith "/" path = false ->
  contains "//" path = false ->
  db_path_to_user_path path = FILE_SERVER_LOCATION ++ "/" ++ path.
Proof.
  intros Hw Hs Hd. rewrite (generic_user_path path Hw Hd).
  unfold joined, join_step, PosixPath.sep. now rewrite Hs.
Qed.

Lemma relative_path_under_mount_witness :
  db_path_to_user_path "archives/2024/site-a"
  = FILE_SERVER_LOCATION ++ "/" ++ "archives/2024/site-a".
Proof.
  apply (relative_path_under_mount "archives/2024/site-a"); reflexivity.
Defined.

(** *** The Windows splitter *)

(** [chr(92).join] with an empty separator: the segments one after the
    other. *)
Definition glued (l : list string) : string := fold_right append "" l.

Lemma app_empty_r (s : string) : s ++ "" = s.
Proof. induction s as [|a s IH]; simpl; [reflexivity | now rewrite IH]. Qed.

Lemma concat_glued (l : list string) : String.concat "" l = glued l.
Proof.
  induction l as [|x l IH]; [reflexivity|].
  simpl. destruct l as [|y l].
  - simpl. now rewrite app_empty_r.
  - now rewrite IH.
Qed.

Lemma glued_app (l m : list string) : glued (l ++ m) = glued l ++ glued m.
Proof.
  induction l as [|x l IH]; simpl; [reflexivity|].
  now rewrite IH, StrProps.app_assoc.
Qed.

Definition clean_segment (seg : string) : Prop :=
  seg <> "" /\ contains "\" seg = false.

Lemma windows_fold (rest : string) (parts : list string) (curr : string) :
  has "\" curr = false ->
  exists extra curr',
    fold_left windows_char_step (list_ascii_of_string rest) (parts, curr)
    = ((parts ++ extra)%list, curr')
    /\ Forall clean_segment extra
    /\ has "\" curr' = false
    /\ glued extra ++ curr' = curr ++ without "\" rest.
Proof.
  revert parts curr; induction rest as [|c rest IH]; intros parts curr Hc.
  - exists [], curr. simpl. rewrite app_nil_r, app_empty_r.
    repeat split; auto.
  - simpl list_ascii_of_string. cbn [fold_left]. unfold windows_char_step at 2.
    simpl without.
    destruct (Ascii.eqb c "\") eqn:Ec.
    + destruct (truthy curr) eqn:Et.
      * destruct (IH (parts ++ [curr])%list "" eq_refl)
          as (extra & curr' & Hf & Hg & Hh & He).
        exists (curr :: extra), curr'. rewrite Hf, <- app_assoc.
        repeat split; auto.
        -- constructor; [|exact Hg]. split; [|exact Hc].
           intros ->. discriminate Et.
        -- simpl. rewrite StrProps.app_assoc, He. reflexivity.
      * destruct (IH parts curr Hc) as (extra & curr' & Hf & Hg & Hh & He).
        exists extra, curr'. repeat split; auto.
    + assert (Hc' : has "\" (curr ++ String c "") = false).
      { rewrite has_app, Hc, has_cons, Ec. reflexivity. }
      destruct (IH parts (curr ++ String c "") Hc')
        as (extra & curr' & Hf & Hg & Hh & He).
      exists extra, curr'. repeat split; auto.
      rewrite He, StrProps.app_assoc. reflexivity.
Qed.

(** A path of the Windows form splits into its drive token and
    segments that are never empty and hold no backslash; put one after
    the other, the segments are what follows the drive with the
    backslashes taken out, so no other character is lost or moved. *)
Theorem windows_split_keeps_everything (path : string) :
  match_windows_pattern path = true ->
  exists rest,
    split_path path = take 2 path :: rest
    /\ Forall clean_segment rest
    /\ String.concat "" rest = without "\" (drop 2 path).
Proof.
  intros Hw. unfold split_path, detect_filepath_type. rewrite Hw.
  destruct (PathProps.match_windows_pattern_inv path Hw)
    as (l & c & t & -> & Hl).
  unfold split_windows_path, startswith, char_at_is.
  cbn [String.prefix String.length String.get take drop Nat.leb andb].
  destruct (ascii_dec "\"%char l) as [E|E].
  { subst l. discriminate Hl. }
  cbn [Ascii.eqb Bool.eqb andb].
  destruct (windows_fold (String "\" (String c t)) [String l ":"] "" eq_refl)
    as (extra & curr' & Hf & Hg & Hh & He).
  rewrite Hf. cbn [negb andb].
  destruct (truthy curr') eqn:Et.
  - exists (extra ++ [curr'])%list. repeat split.
    + apply Forall_app. split; [exact Hg|].
      constructor; [|constructor]. split; [|exact Hh].
      intros ->. discriminate Et.
    + rewrite concat_glued, glued_app. simpl glued. rewrite app_empty_r.
      exact He.
  - exists extra. repeat split; [exact Hg|].
    rewrite concat_glued.
    assert (curr' = "") as Hempty.
    { unfold truthy in Et. apply negb_false_iff in Et.
      now apply String.eqb_eq in Et. }
    rewrite Hempty, app_empty_r in He. exact He.
Qed.

Lemma windows_split_keeps_everything_witness :
  exists rest,
    split_path "C:\PPDO\\Records\2024\" = "C:" :: rest
    /\ Forall clean_segment rest
    /\ String.concat "" rest = "PPDORecords2024".
Proof.
  apply (windows_split_keeps_everything "C:\PPDO\\Records\2024\").
  reflexivity.
Defined.

End PathMore.

(** ** The clerk of [change_project_pm.py] and the start of a session *)

Module PmClerk.
Import PyStr Clerk PmChange.

(** What [requests.get] does: it returns, it raises a
    [ConnectionError], or it raises something else. *)
Inductive get_outcome : Type :=
| GetReturns
| GetConnectionError (e : string)
| GetOtherError (e : string).

(** The rest of the outside that [change_project_pm.py] and the
    constructor of the clerk talk to: the people layout of the server,
    the network, and the text of the [IndexError] that indexing an
    empty found set raises. *)
Record outside (R : Type) : Type := {
  find_people : query -> R -> outcome (list person) * R;
  people_bool : list person -> bool;
  requests_get : string -> R -> get_outcome * R;
  index_error : string
}.
Arguments find_people {R} _ _ _.
Arguments people_bool {R} _ _.
Arguments requests_get {R} _ _ _.
Arguments index_error {R} _.

Section Clerk.
Context {R H : Type}.
Variable fm : fm_server R.
Variable out : outside R.

Local Abbreviation M := (Clerk.M (R:=R) (H:=H)).

Definition auto_login_attempts : nat := 3.

(** [requests.get(url)] under [except ConnectionError]: the result is
    the text of the [ConnectionError] caught, or [None] when the call
    returned; any other exception goes on. *)
Definition get (url : string) : M (option string) :=
  fun w =>
    let (r, rem) := requests_get out url (remote w) in
    let w' := {| remote := rem; trace := trace w; heap := heap w |} in
    match r with
    | GetReturns => (Return None, w')
    | GetConnectionError e => (Return (Some e), w')
    | GetOtherError e => (Raise e, w')
    end.

(** [ProjectChangingClerk.__init__], from [self.fm_server.login()] on. *)
Definition init (url : string) : M unit :=
  try_except (fm_login fm)
    (fun _ =>
       url_error <- get url ;;
       match url_error with
       | None => ret tt
       | Some _ =>
           net_error <- get "https://www.google.com" ;;
           match net_error with
           | Some _ => raise "No internet connection available?"
           | None =>
               raise ("Could not connect to the FileMaker server at " ++ url)
           end
       end).

Definition fm_find_people (q : query) : M (list person) :=
  call (EvFind q) (find_people out q).

(** [foundset[0]] *)
Definition first_of {A} (l : list A) : M A :=
  match l with
  | x :: _ => ret x
  | [] => raise (index_error out)
  end.

Definition projects_queried_by_number_df (fuel : nat) (number : string)
  : M (list record) :=
  let project_number_query := [[(PROJECT_NUMBER_FIELD, number)]] in
  project_foundset <-
    _auto_relogin_fm fm auto_login_attempts fuel (fm_find fm project_number_query) ;;
  if not_foundset fm project_foundset then ret []
  else match project_foundset with
       | Some fs => ret fs
       | None => ret []
       end.

Definition get_project_by_idx (fuel : nat) (idx : string) : M (option record) :=
  let project_query := [[(IDX_FIELD_NAME, idx)]] in
  project_foundset <-
    _auto_relogin_fm fm auto_login_attempts fuel (fm_find fm project_query) ;;
  if not_foundset fm project_foundset then ret None
  else match project_foundset with
       | Some fs => p <- first_of fs ;; ret (Some p)
       | None => ret None
       end.

Definition not_people (x : option (list person)) : bool :=
  match x with
  | None => true
  | Some l => negb (people_bool out l)
  end.

Definition get_pm_by_id (fuel : nat) (pm_id : string) : M person :=
  let pm_query := [[(IDX_FIELD_NAME, pm_id)]] in
  pm_foundset <-
    _auto_relogin_fm fm auto_login_attempts fuel (fm_find_people pm_query) ;;
  if not_people pm_foundset then
    raise ("No project manager found with the id " ++ pm_id)
  else match pm_foundset with
       | Some l => first_of l
       | None => raise (index_error out)
       end.

Definition get_project_pm (fuel : nat) (project_number project_idx : string)
  : M (option person) :=
  if negb (truthy project_number) && negb (truthy project_idx) then
    raise "Either project_number or project_idx must be provided."
  else if truthy project_number then
    projects_foundset_df <- projects_queried_by_number_df fuel project_number ;;
    match projects_foundset_df with
    | [] => ret None
    | _ :: _ :: _ =>
        raise ("Multiple projects found with the same project number"
                 ++ project_number)
    | [project] =>
        pm <- get_pm_by_id fuel (ID_ProjectManager project) ;; ret (Some pm)
    end
  else
    let project_query := [[(IDX_FIELD_NAME, project_idx)]] in
    project_foundset <-
      _auto_relogin_fm fm auto_login_attempts fuel (fm_find fm project_query) ;;
    if not_foundset fm project_foundset then ret None
    else match project_foundset with
         | Some fs =>
             project <- first_of fs ;;
             pm <- get_pm_by_id fuel (ID_ProjectManager project) ;;
             ret (Some pm)
         | None => ret None
         end.

End Clerk.

(** *** [PmChangeService.change_project_pm], once the project and the
        new manager are chosen *)

Section Service.
Context {R : Type}.
Variable fm : fm_server R.
Variable out : outside R.

(** The heap of the service is its console: the lines printed. *)
Local Abbreviation M := (Clerk.M (R:=R) (H:=list string)).

Definition console_print (text : string) : M unit :=
  modify_heap (fun lines => (lines ++ [text])%list).

Definition full_name (p : person) : string :=
  NameFirst p ++ " " ++ NameLast p.

(** [change_project_pm] with [self.project_to_change] and
    [self.target_pm] set; [stamp1] and [stamp2] are the two readings of
    the clock. *)
Definition change_project_pm (fuel : nat) (stamp1 stamp2 : string)
  (project_to_change : record) (target_pm : person) : M (option bool) :=
  console_print
    ("Changing project manager for project: "
       ++ ProjectNumber project_to_change ++ ", "
       ++ ProjectName project_to_change) ;;;
  let old_pm_id := ID_ProjectManager project_to_change in
  old_pm_name <-
    (if truthy old_pm_id then
       old_pm <- get_pm_by_id fm out fuel old_pm_id ;;
       console_print ("Current project manager: " ++ full_name old_pm) ;;;
       ret (Some (full_name old_pm))
     else
       console_print
         ("No previous project manager found for "
            ++ ProjectNumber project_to_change ++ ".") ;;;
       ret None) ;;
  console_print (nl ++ nl) ;;;
  let proj_notes := Notes project_to_change in
  let target_pm_name := full_name target_pm in
  let new_notes := _generate_notes_str stamp1 old_pm_name target_pm_name in
  let new_notes :=
    if truthy proj_notes then proj_notes ++ nl ++ new_notes else new_notes in
  let changes_dict :=
    [(PROJECT_NOTES_FIELD, new_notes);
     (PROJECT_PM_ID_FIELD, person_ID_Primary target_pm)] in
  edit_results <-
    make_change_to_project_data fm auto_login_attempts fuel
      (recordId project_to_change) changes_dict ;;
  console_print (_generate_notes_str stamp2 old_pm_name target_pm_name) ;;;
  console_print (nl ++ nl) ;;;
  ret edit_results.

End Service.

End PmClerk.

Module PmClerkProps.
Import PyStr Clerk PmChange PmClerk.

(** A scripted outside for the examples: the replies of the FileMaker
    layouts of projects, those of the people layout, and those of the
    network, each taken in order. *)
Record scripts : Type := {
  project_replies : list reply;
  people_replies : list (outcome (list person));
  network_replies : list get_outcome
}.

Definition on_projects {A} (op : list reply -> outcome A * list reply)
  (s : scripts) : outcome A * scripts :=
  let (r, rest) := op (project_replies s) in
  (r, {| project_replies := rest; people_replies := people_replies s;
         network_replies := network_replies s |}).

Definition scripted_fm : fm_server scripts := {|
  login := on_projects scripted_login;
  find := fun q => on_projects (scripted_find q);
  edit_record := fun rid ch => on_projects (scripted_edit_record rid ch);
  foundset_bool := fun _ => true
|}.

Definition scripted_find_people (q : query) (s : scripts)
  : outcome (list person) * scripts :=
  match people_replies s with
  | r :: rest =>
      (r, {| project_replies := project_replies s; people_replies := rest;
             network_replies := network_replies s |})
  | [] => (Raises script_exhausted, s)
  end.

Definition scripted_get (url : string) (s : scripts) : get_outcome * scripts :=
  match network_replies s with
  | r :: rest =>
      (r, {| project_replies := project_replies s;
             people_replies := people_replies s; network_replies := rest |})
  | [] => (GetOtherError script_exhausted, s)
  end.

Definition scripted_out : outside scripts := {|
  find_people := scripted_find_people;
  people_bool := fun _ => true;
  requests_get := scripted_get;
  index_error := "list index out of range"
|}.

Section Session.
Context {R H : Type}.
Variable fm : fm_server R.
Variable out : outside R.

(** When the login of the constructor fails and the server address
    answers the probe, the constructor returns as if nothing had
    happened: the failure of the login is not raised, and the clerk is
    handed out though the login did not succeed. *)
Theorem failed_login_swallowed (url : string) (w : world R H) (e : string)
  (r1 r2 : R) :
  login fm (remote w) = (Raises e, r1) ->
  requests_get out url r1 = (GetReturns, r2) ->
  init fm out url w
  = (Return tt,
     {| remote := r2; trace := (trace w ++ [EvLogin])%list; heap := heap w |}).
Proof.
  intros Hl Hg. unfold init, try_except, fm_login, call, bind, get, ret.
  rewrite Hl. simpl. now rewrite Hg.
Qed.

(** When the login fails and the probe of the server address raises a
    [ConnectionError], the probe of the outer address decides: if it
    fails to connect as well the constructor reports that there is no
    internet connection, if it returns the constructor reports that the
    FileMaker server at the address cannot be reached, and any other
    exception of the probe goes to the caller as it is. *)
Theorem unreachable_server_diagnosed (url : string) (w : world R H)
  (e e1 : string) (r1 r2 r3 : R) (probe : get_outcome) :
  login fm (remote w) = (Raises e, r1) ->
  requests_get out url r1 = (GetConnectionError e1, r2) ->
  requests_get out "https://www.google.com" r2 = (probe, r3) ->
  init fm out url w
  = (Raise
       match probe with
       | GetConnectionError _ => "No internet connection available?"
       | GetReturns => "Could not connect to the FileMaker server at " ++ url
       | GetOtherError e2 => e2
       end,
     {| remote := r3; trace := (trace w ++ [EvLogin])%list; heap := heap w |}).
Proof.
  intros Hl Hg1 Hg2. unfold init, try_except, fm_login, call, bind, get, ret,
    raise.
  rewrite Hl. simpl. rewrite Hg1. simpl. rewrite Hg2.
  now destruct probe.
Qed.

(** A manager that the people layout does not know (the find raises the
    401 fault) is an error for [get_pm_by_id], though the wrapper turned
    the fault into [None]: a [ValueError] that names the identifier. *)
Theorem unknown_manager_is_an_error (fuel : nat) (pm_id : string)
  (w : world R H) (e : string) (r1 : R) :
  find_people out [[(IDX_FIELD_NAME, pm_id)]] (remote w) = (Raises e, r1) ->
  contains "401" e = true ->
  contains "952" e = false ->
  get_pm_by_id fm out (S fuel) pm_id w
  = (Raise ("No project manager found with the id " ++ pm_id),
     {| remote := r1;
        trace :=
          (trace w ++ [EvFind [[(IDX_FIELD_NAME, pm_id)]]; EvWarn warning_401])%list;
        heap := heap w |}).
Proof.
  intros Hf H401 H952. unfold get_pm_by_id, fm_find_people.
  unfold bind at 1.
  rewrite (ClerkMore.auto_relogin_no_match fm auto_login_attempts fuel _ w _ e
             (ClerkProps.call_raises _ _ w e r1 Hf) eq_refl H401 H952).
  simpl. now rewrite <- !app_assoc.
Qed.

(** A project number that FileMaker does not know gives
    [projects_queried_by_number_df] an empty frame, not [None] and not
    an exception. *)
Theorem unknown_number_gives_empty_frame (fuel : nat) (number : string)
  (w : world R H) (e : string) (r1 : R) :
  find fm [[(PROJECT_NUMBER_FIELD, number)]] (remote w) = (Raises e, r1) ->
  contains "401" e = true ->
  contains "952" e = false ->
  projects_queried_by_number_df fm (S fuel) number w
  = (Return [],
     {| remote := r1;
        trace :=
          (trace w
             ++ [EvFind [[(PROJECT_NUMBER_FIELD, number)]];
                 EvWarn warning_401])%list;
        heap := heap w |}).
Proof.
  intros Hf H401 H952. unfold projects_queried_by_number_df, fm_find.
  unfold bind at 1.
  rewrite (ClerkMore.auto_relogin_no_match fm auto_login_attempts fuel _ w _ e
             (ClerkProps.call_raises _ _ w e r1 Hf) eq_refl H401 H952).
  simpl. now rewrite <- !app_assoc.
Qed.

(** When a project number finds more than one project,
    [get_project_pm] raises and does not look any manager up: the find
    by number is its only call. *)
Theorem ambiguous_number_stops_lookup (fuel : nat)
  (project_number project_idx : string) (w : world R H)
  (p1 p2 : record) (more : list record) (r1 : R) :
  truthy project_number = true ->
  find fm [[(PROJECT_NUMBER_FIELD, project_number)]] (remote w)
    = (Returns (p1 :: p2 :: more), r1) ->
  foundset_bool fm (p1 :: p2 :: more) = true ->
  get_project_pm fm out (S fuel) project_number project_idx w
  = (Raise ("Multiple projects found with the same project number"
              ++ project_number),
     {| remote := r1;
        trace :=
          (trace w ++ [EvFind [[(PROJECT_NUMBER_FIELD, project_number)]]])%list;
        heap := heap w |}).
Proof.
  intros Ht Hf Hb. unfold get_project_pm. rewrite Ht. cbn [negb andb].
  unfold projects_queried_by_number_df, fm_find.
  unfold bind at 1. unfold bind at 1.
  rewrite (ClerkProps.auto_relogin_returns fm auto_login_attempts _ fuel w _
             (p1 :: p2 :: more : foundset)
             (ClerkProps.call_returns (A:=foundset) _ _ w _ r1 Hf)).
  unfold not_foundset. rewrite Hb. reflexivity.
Qed.

End Session.

Section ServiceProps.
Context {R : Type}.
Variable fm : fm_server R.
Variable out : outside R.
Variable fuel : nat.
Variables stamp1 stamp2 : string.
Variable project_to_change : record.
Variable target_pm : person.
Variable w : world R (list string).

Definition opening_line : string :=
  "Changing project manager for project: "
    ++ ProjectNumber project_to_change ++ ", "
    ++ ProjectName project_to_change.

Definition manager_query : query :=
  [[(IDX_FIELD_NAME, ID_ProjectManager project_to_change)]].

(** The changes that [change_project_pm] sends, given the name of the
    previous manager. *)
Definition changes_sent (old_pm_name : option string) : field_data :=
  [(PROJECT_NOTES_FIELD,
    new_notes_value stamp1 (Notes project_to_change) old_pm_name
      (full_name target_pm));
   (PROJECT_PM_ID_FIELD, person_ID_Primary target_pm)].

(** When the project names a manager that the people layout does not
    know, [change_project_pm] stops with the error of the lookup after
    its opening line: no edit call is made and the project is left as it
    is. *)
Theorem unknown_old_manager_aborts_change (e : string) (r1 : R) :
  truthy (ID_ProjectManager project_to_change) = true ->
  find_people out manager_query (remote w) = (Raises e, r1) ->
  contains "401" e = true ->
  contains "952" e = false ->
  change_project_pm fm out (S fuel) stamp1 stamp2 project_to_change target_pm w
  = (Raise ("No project manager found with the id "
              ++ ID_ProjectManager project_to_change),
     {| remote := r1;
        trace := (trace w ++ [EvFind manager_query; EvWarn warning_401])%list;
        heap := (heap w ++ [opening_line])%list |}).
Proof.
  intros Ht Hf H401 H952. unfold change_project_pm.
  unfold bind at 1. unfold console_print at 1, modify_heap at 1.
  rewrite Ht. unfold bind at 1. unfold bind at 1.
  unfold get_pm_by_id, fm_find_people. fold manager_query.
  unfold bind at 1.
  set (w1 := {| remote := remote w; trace := trace w;
                heap := (heap w ++ [opening_line])%list |}).
  rewrite (ClerkMore.auto_relogin_no_match fm auto_login_attempts fuel _ w1 _ e
             (ClerkProps.call_raises _ _ w1 e r1 Hf) eq_refl H401 H952).
  simpl. now rewrite <- !app_assoc.
Qed.

(** When the project has no manager yet and the edit call returns,
    [change_project_pm] makes that one call and no other: it looks no
    manager up, writes the note of a first assignment below the notes
    and the primary key of the new manager into the manager field, and
    hands the result of the edit back. *)
Theorem first_manager_is_one_edit (b : bool) (r1 : R) :
  truthy (ID_ProjectManager project_to_change) = false ->
  edit_record fm (recordId project_to_change) (changes_sent None) (remote w)
    = (Returns b, r1) ->
  change_project_pm fm out (S fuel) stamp1 stamp2 project_to_change target_pm w
  = (Return (Some b),
     {| remote := r1;
        trace :=
          (trace w
             ++ [EvEditRecord (recordId project_to_change) (changes_sent None)])%list;
        heap :=
          (heap w
             ++ [opening_line;
                 ("No previous project manager found for "
                    ++ ProjectNumber project_to_change ++ ".")%string;
                 (nl ++ nl)%string;
                 _generate_notes_str stamp2 None (full_name target_pm);
                 (nl ++ nl)%string])%list |}).
Proof.
  intros Ht He. unfold change_project_pm.
  unfold bind at 1. unfold console_print at 1, modify_heap at 1.
  rewrite Ht.
  unfold bind at 1. unfold bind at 1.
  unfold console_print at 1, modify_heap at 1. unfold ret at 1.
  unfold bind at 1. unfold console_print at 1, modify_heap at 1.
  cbn [remote trace heap].
  unfold bind at 1. unfold make_change_to_project_data, fm_edit_record.
  fold (new_notes_value stamp1 (Notes project_to_change) None
          (full_name target_pm)).
  fold (changes_sent None).
  match goal with
  | |- context [_auto_relogin_fm fm auto_login_attempts (S fuel)
                  (call ?ev ?op) ?w2] =>
      rewrite (ClerkProps.auto_relogin_returns fm auto_login_attempts
                 (call ev op) fuel w2 _ b
                 (ClerkProps.call_returns ev op w2 b r1 He))
  end.
  unfold bind, console_print, modify_heap, ret. simpl.
  now rewrite <- !app_assoc.
Qed.

(** When the project has a manager that the people layout finds and the
    edit call returns, [change_project_pm] looks the manager up, then
    makes the one edit call: the note names the previous manager by
    first and last name. *)
Theorem manager_change_names_the_previous (old_pm : person)
  (others : list person) (b : bool) (r1 r2 : R) :
  truthy (ID_ProjectManager project_to_change) = true ->
  find_people out manager_query (remote w) = (Returns (old_pm :: others), r1) ->
  people_bool out (old_pm :: others) = true ->
  edit_record fm (recordId project_to_change)
    (changes_sent (Some (full_name old_pm))) r1 = (Returns b, r2) ->
  change_project_pm fm out (S fuel) stamp1 stamp2 project_to_change target_pm w
  = (Return (Some b),
     {| remote := r2;
        trace :=
          (trace w
             ++ [EvFind manager_query;
                 EvEditRecord (recordId project_to_change)
                   (changes_sent (Some (full_name old_pm)))])%list;
        heap :=
          (heap w
             ++ [opening_line;
                 ("Current project manager: " ++ full_name old_pm)%string;
                 (nl ++ nl)%string;
                 _generate_notes_str stamp2 (Some (full_name old_pm))
                   (full_name target_pm);
                 (nl ++ nl)%string])%list |})
  /\ _generate_notes_str stamp1 (Some (full_name old_pm)) (full_name target_pm)
     = "Project PM changed from " ++ NameFirst old_pm ++ " " ++ NameLast old_pm
         ++ " to " ++ NameFirst target_pm ++ " " ++ NameLast target_pm
         ++ " on " ++ stamp1.
Proof.
  intros Ht Hf Hb He. split.
  2: { unfold _generate_notes_str, full_name.
       rewrite (PathMore.truthy_app_r (NameFirst old_pm) (" " ++ NameLast old_pm))
         by discriminate.
       now rewrite !StrProps.app_assoc. }
  unfold change_project_pm.
  unfold bind at 1. unfold console_print at 1, modify_heap at 1.
  rewrite Ht. unfold bind at 1. unfold bind at 1.
  unfold get_pm_by_id, fm_find_people. fold manager_query.
  unfold bind at 1.
  set (w1 := {| remote := remote w; trace := trace w;
                heap := (heap w ++ [opening_line])%list |}).
  rewrite (ClerkProps.auto_relogin_returns fm auto_login_attempts _ fuel w1 _
             (old_pm :: others)
             (ClerkProps.call_returns _ _ w1 (old_pm :: others) r1 Hf)).
  unfold not_people. rewrite Hb. cbn [negb first_of]. unfold ret at 1.
  unfold bind at 1. unfold console_print at 1, modify_heap at 1.
  unfold ret at 1.
  unfold bind at 1. unfold console_print at 1, modify_heap at 1.
  cbn [remote trace heap].
  unfold bind at 1. unfold make_change_to_project_data, fm_edit_record.
  fold (new_notes_value stamp1 (Notes project_to_change)
          (Some (full_name old_pm)) (full_name target_pm)).
  fold (changes_sent (Some (full_name old_pm))).
  match goal with
  | |- context [_auto_relogin_fm fm auto_login_attempts (S fuel)
                  (call ?ev ?op) ?w2] =>
      rewrite (ClerkProps.auto_relogin_returns fm auto_login_attempts
                 (call ev op) fuel w2 _ b
                 (ClerkProps.call_returns ev op w2 b r2 He))
  end.
  unfold bind, console_print, modify_heap, ret. simpl.
  now rewrite <- !app_assoc.
Qed.

End ServiceProps.

(** The theorems above at work on the scripted outside. *)

Definition start_of (s : scripts) : world scripts unit :=
  {| remote := s; trace := []; heap := tt |}.

Definition console_of (s : scripts) : world scripts (list string) :=
  {| remote := s; trace := []; heap := [] |}.

Definition no_replies : scripts :=
  {| project_replies := []; people_replies := []; network_replies := [] |}.

Definition server_url : string := "https://pp-dev-fm-1.au.ucsc.edu/".

Definition bad_login : string :=
  "FileMaker Server returned error 212, Invalid account".

Definition john : person := {|
  person_ID_Primary := "11";
  NameFirst := "John";
  NameLast := "Smith"
|}.

Definition managed_project : record := {|
  recordId := "7";
  ID_Primary := "4242";
  ProjectNumber := "1234";
  ProjectName := "Site A";
  Notes := "Kickoff held 2023-11-02";
  ID_ProjectManager := "11"
|}.

Lemma failed_login_swallowed_witness :
  init scripted_fm scripted_out server_url
    (start_of {| project_replies := [ReplyFault bad_login];
                 people_replies := []; network_replies := [GetReturns] |})
  = (Return tt, {| remote := no_replies; trace := [EvLogin]; heap := tt |}).
Proof.
  apply (failed_login_swallowed scripted_fm scripted_out server_url
           (start_of {| project_replies := [ReplyFault bad_login];
                        people_replies := [];
                        network_replies := [GetReturns] |})
           bad_login
           {| project_replies := []; people_replies := [];
              network_replies := [GetReturns] |}
           no_replies);
    reflexivity.
Defined.

Lemma unreachable_server_diagnosed_witness :
  init scripted_fm scripted_out server_url
    (start_of {| project_replies := [ReplyFault bad_login];
                 people_replies := [];
                 network_replies :=
                   [GetConnectionError "Max retries exceeded"; GetReturns] |})
  = (Raise ("Could not connect to the FileMaker server at " ++ server_url)%string,
     {| remote := no_replies; trace := [EvLogin]; heap := tt |}).
Proof.
  apply (unreachable_server_diagnosed scripted_fm scripted_out server_url
           (start_of {| project_replies := [ReplyFault bad_login];
                        people_replies := [];
                        network_replies :=
                          [GetConnectionError "Max retries exceeded";
                           GetReturns] |})
           bad_login "Max retries exceeded"
           {| project_replies := []; people_replies := [];
              network_replies :=
                [GetConnectionError "Max retries exceeded"; GetReturns] |}
           {| project_replies := []; people_replies := [];
              network_replies := [GetReturns] |}
           no_replies GetReturns);
    reflexivity.
Defined.

Lemma unknown_manager_is_an_error_witness :
  get_pm_by_id scripted_fm scripted_out 1 "11"
    (start_of {| project_replies := [];
                 people_replies := [Raises ClerkProps.no_match_fault];
                 network_replies := [] |})
  = (Raise "No project manager found with the id 11",
     {| remote := no_replies;
        trace := [EvFind [[(IDX_FIELD_NAME, "11")]]; EvWarn warning_401];
        heap := tt |}).
Proof.
  apply (unknown_manager_is_an_error scripted_fm scripted_out 0 "11"
           (start_of {| project_replies := [];
                        people_replies := [Raises ClerkProps.no_match_fault];
                        network_replies := [] |})
           ClerkProps.no_match_fault no_replies);
    reflexivity.
Defined.

Lemma unknown_number_gives_empty_frame_witness :
  projects_queried_by_number_df scripted_fm 1 "1234"
    (start_of {| project_replies := [ReplyFault ClerkProps.no_match_fault];
                 people_replies := []; network_replies := [] |})
  = (Return [],
     {| remote := no_replies;
        trace := [EvFind [[(PROJECT_NUMBER_FIELD, "1234")]]; EvWarn warning_401];
        heap := tt |}).
Proof.
  apply (unknown_number_gives_empty_frame scripted_fm 0 "1234"
           (start_of {| project_replies := [ReplyFault ClerkProps.no_match_fault];
                        people_replies := []; network_replies := [] |})
           ClerkProps.no_match_fault no_replies);
    reflexivity.
Defined.

Lemma ambiguous_number_stops_lookup_witness :
  get_project_pm scripted_fm scripted_out 1 "1234" ""
    (start_of {| project_replies :=
                   [ReplyFound [managed_project; ClerkProps.a_project]];
                 people_replies := [Returns [john]]; network_replies := [] |})
  = (Raise "Multiple projects found with the same project number1234",
     {| remote := {| project_replies := []; people_replies := [Returns [john]];
                     network_replies := [] |};
        trace := [EvFind [[(PROJECT_NUMBER_FIELD, "1234")]]];
        heap := tt |}).
Proof.
  apply (ambiguous_number_stops_lookup scripted_fm scripted_out 0 "1234" ""
           (start_of {| project_replies :=
                          [ReplyFound [managed_project; ClerkProps.a_project]];
                        people_replies := [Returns [john]];
                        network_replies := [] |})
           managed_project ClerkProps.a_project []
           {| project_replies := []; people_replies := [Returns [john]];
              network_replies := [] |});
    reflexivity.
Defined.

Lemma unknown_old_manager_aborts_change_witness :
  change_project_pm scripted_fm scripted_out 1 "2024-01-05 10:00:00"
    "2024-01-05 10:00:01" managed_project PmChangeProps.jane
    (console_of {| project_replies := [ReplyBool true];
                   people_replies := [Raises ClerkProps.no_match_fault];
                   network_replies := [] |})
  = (Raise "No project manager found with the id 11",
     {| remote := {| project_replies := [ReplyBool true]; people_replies := [];
                     network_replies := [] |};
        trace := [EvFind [[(IDX_FIELD_NAME, "11")]]; EvWarn warning_401];
        heap := ["Changing project manager for project: 1234, Site A"] |}).
Proof.
  apply (unknown_old_manager_aborts_change scripted_fm scripted_out 0
           "2024-01-05 10:00:00" "2024-01-05 10:00:01" managed_project
           PmChangeProps.jane
           (console_of {| project_replies := [ReplyBool true];
                          people_replies := [Raises ClerkProps.no_match_fault];
                          network_replies := [] |})
           ClerkProps.no_match_fault
           {| project_replies := [ReplyBool true]; people_replies := [];
              network_replies := [] |});
    reflexivity.
Defined.

Lemma first_manager_is_one_edit_witness :
  change_project_pm scripted_fm scripted_out 1 "2024-01-05 10:00:00"
    "2024-01-05 10:00:01" PmChangeProps.noted_project PmChangeProps.jane
    (console_of {| project_replies := [ReplyBool true]; people_replies := [];
                   network_replies := [] |})
  = (Return (Some true),
     {| remote := no_replies;
        trace :=
          [EvEditRecord "7"
             [(PROJECT_NOTES_FIELD,
               ("Kickoff held 2023-11-02" ++ nl
                  ++ "Project PM set to Jane Doe on 2024-01-05 10:00:00")%string);
              (PROJECT_PM_ID_FIELD, "15")]];
        heap :=
          ["Changing project manager for project: 1234, Site A";
           "No previous project manager found for 1234.";
           (nl ++ nl)%string;
           "Project PM set to Jane Doe on 2024-01-05 10:00:01";
           (nl ++ nl)%string] |}).
Proof.
  apply (first_manager_is_one_edit scripted_fm scripted_out 0
           "2024-01-05 10:00:00" "2024-01-05 10:00:01"
           PmChangeProps.noted_project PmChangeProps.jane
           (console_of {| project_replies := [ReplyBool true];
                          people_replies := []; network_replies := [] |})
           true no_replies);
    reflexivity.
Defined.

Lemma manager_change_names_the_previous_witness :
  change_project_pm scripted_fm scripted_out 1 "2024-01-05 10:00:00"
    "2024-01-05 10:00:01" managed_project PmChangeProps.jane
    (console_of {| project_replies := [ReplyBool true];
                   people_replies := [Returns [john]];
                   network_replies := [] |})
  = (Return (Some true),
     {| remote := no_replies;
        trace :=
          [EvFind [[(IDX_FIELD_NAME, "11")]];
           EvEditRecord "7"
             [(PROJECT_NOTES_FIELD,
               ("Kickoff held 2023-11-02" ++ nl
                  ++ "Project PM changed from John Smith to Jane Doe on 2024-01-05 10:00:00")%string);
              (PROJECT_PM_ID_FIELD, "15")]];
        heap :=
          ["Changing project manager for project: 1234, Site A";
           "Current project manager: John Smith";
           (nl ++ nl)%string;
           "Project PM changed from John Smith to Jane Doe on 2024-01-05 10:00:01";
           (nl ++ nl)%string] |}).
Proof.
  apply (manager_change_names_the_previous scripted_fm scripted_out 0
           "2024-01-05 10:00:00" "2024-01-05 10:00:01" managed_project
           PmChangeProps.jane
           (console_of {| project_replies := [ReplyBool true];
                          people_replies := [Returns [john]];
                          network_replies := [] |})
           john [] true
           {| project_replies := [ReplyBool true]; people_replies := [];
              network_replies := [] |}
           no_replies);
    reflexivity.
Defined.

End PmClerkProps.
